(** * The virtual keyboard of the 2D GUI: [gui/src/2D/controls/virtualKeyboard.ts]

    A shallow embedding of [KeyPropertySet] and [VirtualKeyboard] and the
    properties the specification states about them.

    Conventions of the embedding.
    - A JavaScript [number] that the code uses as a counter or copies around
      ([shiftState], [thickness], the shadow offsets) is a [Z].
    - A JavaScript string is a [string]; the three glyphs of the keyboard are
      written as their UTF-8 text.  The code only compares strings and maps
      their case, so the encoding is not observable.
    - [String.prototype.toUpperCase] and [toLowerCase] belong to the platform:
      they are the two methods of the class [CaseMapping].
    - Objects that are shared by reference (the attached [InputText], the
      observers returned by [Observable.add]) live in a store and are named
      by a location or an identifier.
    - The casts of the source are taken as the typing of the control tree:
      the children of the keyboard are rows ([<Container>row]), the children
      of a row are buttons ([as Button]) and the first child of a button is a
      [TextBlock].  [None] in a child list is an entry for which the guard of
      the source ([!row || !row.children], [!button]) skips the iteration. *)

From Stdlib Require Import ZArith String Ascii.
From stdpp Require Import gmap list strings.

Open Scope string_scope.
Open Scope list_scope.
Open Scope Z_scope.

(** ** Strings *)

(** The labels that the key router treats as commands. *)
Definition SHIFT : string := "⇧".      (* U+21E7, the shift key *)
Definition BACKSPACE : string := "←".  (* U+2190 *)
Definition ENTER : string := "↵".      (* U+21B5 *)

(** The case mapping of the platform's strings. *)
Class CaseMapping := {
  toUpperCase : string → string;
  toLowerCase : string → string
}.

(** Truthiness of a JavaScript number (integers: everything but zero). *)
Definition truthy (n : Z) : bool := negb (n =? 0).

(** Truthiness of an optional string property: present and not empty. *)
Definition truthy_str (s : option string) : bool :=
  match s with
  | Some s => negb (String.eqb s "")
  | None => false
  end.

(** [p && p.field ? p.field : fallback] *)
Definition or_default {P} (p : option P) (field : P → option string)
    (fallback : string) : string :=
  match p with
  | Some p => if truthy_str (field p) then default fallback (field p) else fallback
  | None => fallback
  end.

(** An instance of the case mapping to evaluate with: the Unicode mapping on
    the letters of ASCII, every other byte left as it is. *)
Definition ascii_upper (c : ascii) : ascii :=
  let n := N_of_ascii c in
  if ((97 <=? n) && (n <=? 122))%N then ascii_of_N (n - 32) else c.

Definition ascii_lower (c : ascii) : ascii :=
  let n := N_of_ascii c in
  if ((65 <=? n) && (n <=? 90))%N then ascii_of_N (n + 32) else c.

Fixpoint string_map (f : ascii → ascii) (s : string) : string :=
  match s with
  | EmptyString => EmptyString
  | String c s => String (f c) (string_map f s)
  end.

Definition ascii_case : CaseMapping :=
  {| toUpperCase := string_map ascii_upper;
     toLowerCase := string_map ascii_lower |}.

(** A width or height as the default layout writes it, ["<n>px"]: the number
    of pixels, [None] for any other text. *)
Definition digit_value (c : ascii) : option Z :=
  let n := N_of_ascii c in
  if ((48 <=? n) && (n <=? 57))%N then Some (Z.of_N (n - 48)) else None.

Fixpoint px_digits (acc : Z) (s : string) : option Z :=
  match s with
  | "px" => Some acc
  | String c s =>
      match digit_value c with
      | Some d => px_digits (10 * acc + d) s
      | None => None
      end
  | EmptyString => None
  end.

Definition px_value (s : string) : option Z :=
  match s with
  | String c _ => match digit_value c with Some _ => px_digits 0 s | None => None end
  | EmptyString => None
  end.

(** ** The data model *)

(** Class used to store key control properties: every field is optional. *)
Module KeyPropertySet.
Record t := mk {
  width : option string;
  height : option string;
  paddingLeft : option string;
  paddingRight : option string;
  paddingTop : option string;
  paddingBottom : option string;
  color : option string;
  background : option string
}.

(** The object literal [{}]. *)
Definition empty : t := mk None None None None None None None None.
End KeyPropertySet.

Module TextBlock.
Record t := mk { text : string }.
End TextBlock.

(** Observers are compared by identity: an observer is an identifier and the
    callback it was created with. *)
Module Observable.
Definition t (C : Type) : Type := list (nat * C).

(** Modelled from the spec: [Observable.add] subscribes a callback.  The
    class is not among the sources; [add] puts a new observer after the
    ones already there and returns it, here named by the identifier [id]
    that the caller draws from the store. *)
Definition add {C} (id : nat) (callback : C) (o : t C) : t C :=
  o ++ [(id, callback)].

(** Modelled from the spec: [Observable.remove] unsubscribes an observer.
    The class is not among the sources; [remove] takes a nullable observer,
    does nothing for [null] or for an observer that is not registered, and
    otherwise takes the observer out of the list. *)
Fixpoint remove {C} (observer : option nat) (o : t C) : t C :=
  match observer, o with
  | None, _ => o
  | Some _, [] => []
  | Some id, (id', c) :: o' =>
      if Nat.eqb id id' then o' else (id', c) :: remove observer o'
  end.

Definition ids {C} (o : t C) : list nat := fst <$> o.
End Observable.

(** The closure a key button adds to its [onPointerUpObservable]:
    [() => this.onKeyPressObservable.notifyObservers(key)]. *)
Inductive PointerUpCallback := NotifyKeyPress (key : string).

Module Button.
Record t := mk {
  name : string;
  children : list TextBlock.t;
  width : string;
  height : string;
  color : string;
  background : string;
  paddingLeft : string;
  paddingRight : string;
  paddingTop : string;
  paddingBottom : string;
  thickness : Z;
  isFocusInvisible : bool;
  shadowColor : string;
  shadowBlur : Z;
  shadowOffsetX : Z;
  shadowOffsetY : Z;
  onPointerUpObservable : list PointerUpCallback
}.

Definition set_children (v : list TextBlock.t) (b : t) : t :=
  mk (name b) v (width b) (height b) (color b) (background b)
     (paddingLeft b) (paddingRight b) (paddingTop b) (paddingBottom b)
     (thickness b) (isFocusInvisible b) (shadowColor b) (shadowBlur b)
     (shadowOffsetX b) (shadowOffsetY b) (onPointerUpObservable b).

Definition set_color (v : string) (b : t) : t :=
  mk (name b) (children b) (width b) (height b) v (background b)
     (paddingLeft b) (paddingRight b) (paddingTop b) (paddingBottom b)
     (thickness b) (isFocusInvisible b) (shadowColor b) (shadowBlur b)
     (shadowOffsetX b) (shadowOffsetY b) (onPointerUpObservable b).

Definition set_thickness (v : Z) (b : t) : t :=
  mk (name b) (children b) (width b) (height b) (color b) (background b)
     (paddingLeft b) (paddingRight b) (paddingTop b) (paddingBottom b)
     v (isFocusInvisible b) (shadowColor b) (shadowBlur b)
     (shadowOffsetX b) (shadowOffsetY b) (onPointerUpObservable b).

(** Modelled from the spec: [Button.CreateSimpleButton(name, text)], the
    factory of the generic button control, is not among the sources; it
    produces a button with an embedded text label as its first child.  The
    fields that [_createKey] assigns before it returns the button start
    out empty here. *)
Definition CreateSimpleButton (name text : string) : t :=
  mk name [TextBlock.mk text] "" "" "" "" "" "" "" "" 0 false "" 0 0 0 [].
End Button.

(** A row of keys: the [StackPanel] that [addKeysRow] builds. *)
Module StackPanel.
Record t := mk {
  isVertical : bool;
  isFocusInvisible : bool;
  children : list (option Button.t)
}.

Definition set_children (v : list (option Button.t)) (p : t) : t :=
  mk (isVertical p) (isFocusInvisible p) v.

(** Modelled from the spec: [Container.addControl] is not among the
    sources; a control added to a container comes after the children
    already there (append-only, display order = call order). *)
Definition addControl (b : Button.t) (p : t) : t :=
  set_children (children p ++ [Some b]) p.
End StackPanel.

(** The closures that [connect] adds to the observables of the input. *)
Inductive VisibilityCallback := SetVisible (isVisible : bool).

(** The closure that [connect] adds to [onKeyPressObservable]. *)
Inductive KeyPressCallback := RouteKey.

(** The part of an [InputText] that the keyboard reads and writes. *)
Module InputText.
Record t := mk {
  onFocusObservable : Observable.t VisibilityCallback;
  onBlurObservable : Observable.t VisibilityCallback
}.
End InputText.

(** Inputs are shared with the rest of the scene: the keyboard holds the
    location of the one it is attached to. *)
Definition loc := nat.

(** What a new [VirtualKeyboard] inherits from [Control]; the class is not
    among the sources, its initial values are a parameter. *)
Module Control.
Record t := mk {
  isVisible : bool;
  shadowColor : string;
  shadowBlur : Z;
  shadowOffsetX : Z;
  shadowOffsetY : Z
}.
End Control.

Module VirtualKeyboard.
Record t := mk {
  (* inherited from StackPanel, Container and Control *)
  children : list (option StackPanel.t);
  isVisible : bool;
  shadowColor : string;
  shadowBlur : Z;
  shadowOffsetX : Z;
  shadowOffsetY : Z;
  (* declared by VirtualKeyboard *)
  onKeyPressObservable : Observable.t KeyPressCallback;
  defaultButtonWidth : string;
  defaultButtonHeight : string;
  defaultButtonPaddingLeft : string;
  defaultButtonPaddingRight : string;
  defaultButtonPaddingTop : string;
  defaultButtonPaddingBottom : string;
  defaultButtonColor : string;
  defaultButtonBackground : string;
  shiftButtonColor : string;
  selectedShiftThickness : Z;
  shiftState : Z;
  _connectedInputText : option loc;
  _onFocusObserver : option nat;
  _onBlurObserver : option nat;
  _onKeyPressObserver : option nat
}.

Definition set_children (v : list (option StackPanel.t)) (k : t) : t :=
  mk v (isVisible k) (shadowColor k) (shadowBlur k) (shadowOffsetX k)
     (shadowOffsetY k) (onKeyPressObservable k) (defaultButtonWidth k)
     (defaultButtonHeight k) (defaultButtonPaddingLeft k)
     (defaultButtonPaddingRight k) (defaultButtonPaddingTop k)
     (defaultButtonPaddingBottom k) (defaultButtonColor k)
     (defaultButtonBackground k) (shiftButtonColor k)
     (selectedShiftThickness k) (shiftState k) (_connectedInputText k)
     (_onFocusObserver k) (_onBlurObserver k) (_onKeyPressObserver k).

Definition set_isVisible (v : bool) (k : t) : t :=
  mk (children k) v (shadowColor k) (shadowBlur k) (shadowOffsetX k)
     (shadowOffsetY k) (onKeyPressObservable k) (defaultButtonWidth k)
     (defaultButtonHeight k) (defaultButtonPaddingLeft k)
     (defaultButtonPaddingRight k) (defaultButtonPaddingTop k)
     (defaultButtonPaddingBottom k) (defaultButtonColor k)
     (defaultButtonBackground k) (shiftButtonColor k)
     (selectedShiftThickness k) (shiftState k) (_connectedInputText k)
     (_onFocusObserver k) (_onBlurObserver k) (_onKeyPressObserver k).

Definition set_shiftState (v : Z) (k : t) : t :=
  mk (children k) (isVisible k) (shadowColor k) (shadowBlur k)
     (shadowOffsetX k) (shadowOffsetY k) (onKeyPressObservable k)
     (defaultButtonWidth k) (defaultButtonHeight k)
     (defaultButtonPaddingLeft k) (defaultButtonPaddingRight k)
     (defaultButtonPaddingTop k) (defaultButtonPaddingBottom k)
     (defaultButtonColor k) (defaultButtonBackground k)
     (shiftButtonColor k) (selectedShiftThickness k) v
     (_connectedInputText k) (_onFocusObserver k) (_onBlurObserver k)
     (_onKeyPressObserver k).

(** The four private fields of the connection and the observable of the
    keyboard, which [connect] and [disconnect] write together. *)
Definition set_connection (o : Observable.t KeyPressCallback)
    (input : option loc) (f b p : option nat) (k : t) : t :=
  mk (children k) (isVisible k) (shadowColor k) (shadowBlur k)
     (shadowOffsetX k) (shadowOffsetY k) o
     (defaultButtonWidth k) (defaultButtonHeight k)
     (defaultButtonPaddingLeft k) (defaultButtonPaddingRight k)
     (defaultButtonPaddingTop k) (defaultButtonPaddingBottom k)
     (defaultButtonColor k) (defaultButtonBackground k)
     (shiftButtonColor k) (selectedShiftThickness k) (shiftState k)
     input f b p.

(** [new VirtualKeyboard()]: the field initialisers of the class. *)
Definition new (super : Control.t) : t :=
  {| children := [];
     isVisible := Control.isVisible super;
     shadowColor := Control.shadowColor super;
     shadowBlur := Control.shadowBlur super;
     shadowOffsetX := Control.shadowOffsetX super;
     shadowOffsetY := Control.shadowOffsetY super;
     onKeyPressObservable := [];
     defaultButtonWidth := "40px";
     defaultButtonHeight := "40px";
     defaultButtonPaddingLeft := "2px";
     defaultButtonPaddingRight := "2px";
     defaultButtonPaddingTop := "2px";
     defaultButtonPaddingBottom := "2px";
     defaultButtonColor := "#DDD";
     defaultButtonBackground := "#070707";
     shiftButtonColor := "#7799FF";
     selectedShiftThickness := 1;
     shiftState := 0;
     _connectedInputText := None;
     _onFocusObserver := None;
     _onBlurObserver := None;
     _onKeyPressObserver := None |}.
End VirtualKeyboard.

Import VirtualKeyboard.

(** ** Building rows of keys *)

(** [_createKey(key, propertySet)] *)
Definition _createKey (this : VirtualKeyboard.t) (key : string)
    (propertySet : option KeyPropertySet.t) : Button.t :=
  let button := Button.CreateSimpleButton key key in
  {| Button.name := Button.name button;
     Button.children := Button.children button;
     Button.width :=
       or_default propertySet KeyPropertySet.width (defaultButtonWidth this);
     Button.height :=
       or_default propertySet KeyPropertySet.height (defaultButtonHeight this);
     Button.color :=
       or_default propertySet KeyPropertySet.color (defaultButtonColor this);
     Button.background :=
       or_default propertySet KeyPropertySet.background
         (defaultButtonBackground this);
     Button.paddingLeft :=
       or_default propertySet KeyPropertySet.paddingLeft
         (defaultButtonPaddingLeft this);
     Button.paddingRight :=
       or_default propertySet KeyPropertySet.paddingRight
         (defaultButtonPaddingRight this);
     Button.paddingTop :=
       or_default propertySet KeyPropertySet.paddingTop
         (defaultButtonPaddingTop this);
     Button.paddingBottom :=
       or_default propertySet KeyPropertySet.paddingBottom
         (defaultButtonPaddingBottom this);
     Button.thickness := 0;
     Button.isFocusInvisible := true;
     Button.shadowColor := shadowColor this;
     Button.shadowBlur := shadowBlur this;
     Button.shadowOffsetX := shadowOffsetX this;
     Button.shadowOffsetY := shadowOffsetY this;
     Button.onPointerUpObservable :=
       Button.onPointerUpObservable button ++ [NotifyKeyPress key] |}.

(** The body of the loop of [addKeysRow]: the property set of key [i]. *)
Definition properties_at (keys : list string)
    (propertySets : option (list KeyPropertySet.t)) (i : nat)
    : option KeyPropertySet.t :=
  match propertySets with
  | Some sets =>
      if Nat.eqb (length sets) (length keys) then sets !! i else None
  | None => None
  end.

(** The loop of [addKeysRow], from index [i] on. *)
Fixpoint addKeys (this : VirtualKeyboard.t) (keys : list string)
    (propertySets : option (list KeyPropertySet.t))
    (i : nat) (rest : list string) (panel : StackPanel.t) : StackPanel.t :=
  match rest with
  | [] => panel
  | key :: rest =>
      let properties := properties_at keys propertySets i in
      addKeys this keys propertySets (S i) rest
        (StackPanel.addControl (_createKey this key properties) panel)
  end.

(** Modelled from the spec: [Container.addControl] on the keyboard itself,
    which is not among the sources: the row is appended to the panel's row
    sequence. *)
Definition addControl (panel : StackPanel.t) (this : VirtualKeyboard.t)
    : VirtualKeyboard.t :=
  set_children (children this ++ [Some panel]) this.

(** [addKeysRow(keys, propertySets?)] *)
Definition addKeysRow (keys : list string)
    (propertySets : option (list KeyPropertySet.t))
    (this : VirtualKeyboard.t) : VirtualKeyboard.t :=
  let panel := StackPanel.mk false true [] in
  let panel := addKeys this keys propertySets 0%nat keys panel in
  addControl panel this.

(** [VirtualKeyboard.CreateDefaultLayout()] *)
Definition CreateDefaultLayout (super : Control.t) : VirtualKeyboard.t :=
  let returnValue := VirtualKeyboard.new super in
  let returnValue :=
    addKeysRow ["1"; "2"; "3"; "4"; "5"; "6"; "7"; "8"; "9"; "0"; BACKSPACE]
      None returnValue in
  let returnValue :=
    addKeysRow ["q"; "w"; "e"; "r"; "t"; "y"; "u"; "i"; "o"; "p"]
      None returnValue in
  let returnValue :=
    addKeysRow ["a"; "s"; "d"; "f"; "g"; "h"; "j"; "k"; "l"; ";"; "'"; ENTER]
      None returnValue in
  let returnValue :=
    addKeysRow [SHIFT; "z"; "x"; "c"; "v"; "b"; "n"; "m"; ","; "."; "/"]
      None returnValue in
  let returnValue :=
    addKeysRow [" "]
      (Some [KeyPropertySet.mk (Some "200px") None None None None None None None])
      returnValue in
  returnValue.

(** ** The shift state *)

Section Shift.
Context `{CaseMapping}.

(** The body of the inner loop of [applyShiftState] for one child of a
    row. *)
Definition applyShiftState_button (this : VirtualKeyboard.t)
    (shiftState : Z) (button : option Button.t) : option Button.t :=
  match button with
  | None => None
  | Some button =>
      match Button.children button with
      | [] => Some button
      | button_tblock :: others =>
          let button :=
            if String.eqb (TextBlock.text button_tblock) SHIFT then
              let button :=
                Button.set_color
                  (if truthy shiftState then shiftButtonColor this
                   else defaultButtonColor this) button in
              Button.set_thickness
                (if 1 <? shiftState then selectedShiftThickness this else 0)
                button
            else button in
          let button_tblock :=
            TextBlock.mk
              (if 0 <? shiftState
               then toUpperCase (TextBlock.text button_tblock)
               else toLowerCase (TextBlock.text button_tblock)) in
          Some (Button.set_children (button_tblock :: others) button)
      end
  end.

(** The body of the outer loop, for one child of the keyboard. *)
Definition applyShiftState_row (this : VirtualKeyboard.t) (shiftState : Z)
    (row : option StackPanel.t) : option StackPanel.t :=
  match row with
  | None => None
  | Some rowContainer =>
      Some (StackPanel.set_children
              (applyShiftState_button this shiftState
                 <$> StackPanel.children rowContainer)
              rowContainer)
  end.

(** [applyShiftState(shiftState)].  The list of children of a container is
    always there, so the first guard of the source never returns. *)
Definition applyShiftState (shiftState : Z) (this : VirtualKeyboard.t)
    : VirtualKeyboard.t :=
  set_children (applyShiftState_row this shiftState <$> children this) this.

(** *** The key router *)

(** What the router asks of the objects around it: a call of
    [processKey(keyCode, key?)] on an input, and a call of the keyboard's
    own [applyShiftState]. *)
Inductive Call :=
| ProcessKey (input : loc) (keyCode : Z) (key : option string)
| ApplyShiftState (shiftState : Z).

(** The closure that [connect] adds to [onKeyPressObservable]: the new
    state of the keyboard and the calls made, in order. *)
Definition onKeyPress (key : string) (this : VirtualKeyboard.t)
    : VirtualKeyboard.t * list Call :=
  match _connectedInputText this with
  | None => (this, [])
  | Some input =>
      if String.eqb key SHIFT then
        let this := set_shiftState (shiftState this + 1) this in
        let this :=
          if 2 <? shiftState this then set_shiftState 0 this else this in
        (applyShiftState (shiftState this) this,
         [ApplyShiftState (shiftState this)])
      else if String.eqb key BACKSPACE then
        (this, [ProcessKey input 8 None])
      else if String.eqb key ENTER then
        (this, [ProcessKey input 13 None])
      else
        let forwarded :=
          ProcessKey input (-1)
            (Some (if truthy (shiftState this) then toUpperCase key
                   else key)) in
        if shiftState this =? 1 then
          let this := set_shiftState 0 this in
          (applyShiftState (shiftState this) this,
           [forwarded; ApplyShiftState (shiftState this)])
        else (this, [forwarded])
  end.

(** A sequence of key presses, each handled by the router once. *)
Fixpoint pressKeys (keys : list string) (this : VirtualKeyboard.t)
    : VirtualKeyboard.t * list Call :=
  match keys with
  | [] => (this, [])
  | key :: keys =>
      let (this, calls) := onKeyPress key this in
      let (this, calls') := pressKeys keys this in
      (this, calls ++ calls')
  end.

(** Modelled from the spec: [Observable.notifyObservers] is not among the
    sources; the key-press event runs every subscribed callback in turn,
    and the only callback this file subscribes is the router. *)
Fixpoint notifyObservers (observers : Observable.t KeyPressCallback)
    (key : string) (this : VirtualKeyboard.t)
    : VirtualKeyboard.t * list Call :=
  match observers with
  | [] => (this, [])
  | (_, RouteKey) :: observers =>
      let (this, calls) := onKeyPress key this in
      let (this, calls') := notifyObservers observers key this in
      (this, calls ++ calls')
  end.

(** [this.onKeyPressObservable.notifyObservers(key)] *)
Definition notifyKeyPress (key : string) (this : VirtualKeyboard.t)
    : VirtualKeyboard.t * list Call :=
  notifyObservers (onKeyPressObservable this) key this.
End Shift.

(** The focus and blur events of an input: the callbacks of [connect] show
    and hide the keyboard. *)
Definition notifyVisibility (observers : Observable.t VisibilityCallback)
    (this : VirtualKeyboard.t) : VirtualKeyboard.t :=
  foldl (λ this o, let '(_, SetVisible v) := o in set_isVisible v this)
    this observers.

(** ** Attaching an input *)

(** The keyboard, the inputs of the scene and the next unused observer
    identifier.  A location outside the store names no input; the source
    cannot hold such a reference, and the operations leave the store as it
    is there. *)
Record World := mkWorld {
  keyboard : VirtualKeyboard.t;
  inputs : gmap loc InputText.t;
  fresh : nat
}.

(** [connect(input)] *)
Definition connect (input : loc) (w : World) : World :=
  let this := set_isVisible false (keyboard w) in
  let focusObserver := fresh w in
  let blurObserver := S (fresh w) in
  let keyPressObserver := S (S (fresh w)) in
  {| keyboard :=
       set_connection
         (Observable.add keyPressObserver RouteKey (onKeyPressObservable this))
         (Some input) (Some focusObserver) (Some blurObserver)
         (Some keyPressObserver) this;
     inputs :=
       alter (λ i,
                InputText.mk
                  (Observable.add focusObserver (SetVisible true)
                     (InputText.onFocusObservable i))
                  (Observable.add blurObserver (SetVisible false)
                     (InputText.onBlurObservable i)))
         input (inputs w);
     fresh := S (S (S (fresh w))) |}.

(** [disconnect()] *)
Definition disconnect (w : World) : World :=
  let this := keyboard w in
  match _connectedInputText this with
  | None => w
  | Some input =>
      {| keyboard :=
           set_connection
             (Observable.remove (_onKeyPressObserver this)
                (onKeyPressObservable this))
             None (_onFocusObserver this) (_onBlurObserver this)
             (_onKeyPressObserver this) this;
         inputs :=
           alter (λ i,
                    InputText.mk
                      (Observable.remove (_onFocusObserver this)
                         (InputText.onFocusObservable i))
                      (Observable.remove (_onBlurObserver this)
                         (InputText.onBlurObservable i)))
             input (inputs w);
         fresh := fresh w |}
  end.

(** ** Events *)

(** What can happen to the keyboard once it is in a scene. *)
Inductive Event :=
| KeyPress (key : string)          (* onKeyPressObservable is notified *)
| PointerUp (row column : nat)     (* a key button is released *)
| Focus (input : loc)
| Blur (input : loc)
| Connect (input : loc)
| Disconnect.

Section Events.
Context `{CaseMapping}.

(** The closure of [_createKey], run for every subscription of a button. *)
Fixpoint pointerUp (callbacks : list PointerUpCallback)
    (this : VirtualKeyboard.t) : VirtualKeyboard.t * list Call :=
  match callbacks with
  | [] => (this, [])
  | NotifyKeyPress key :: callbacks =>
      let (this, calls) := notifyKeyPress key this in
      let (this, calls') := pointerUp callbacks this in
      (this, calls ++ calls')
  end.

Definition button_at (row column : nat) (this : VirtualKeyboard.t)
    : option Button.t :=
  r ← mjoin (children this !! row);
  mjoin (StackPanel.children r !! column).

Definition with_keyboard (w : World) (r : VirtualKeyboard.t * list Call)
    : World * list Call :=
  (mkWorld r.1 (inputs w) (fresh w), r.2).

Definition step (e : Event) (w : World) : World * list Call :=
  match e with
  | KeyPress key => with_keyboard w (notifyKeyPress key (keyboard w))
  | PointerUp row column =>
      match button_at row column (keyboard w) with
      | Some button =>
          with_keyboard w
            (pointerUp (Button.onPointerUpObservable button) (keyboard w))
      | None => (w, [])
      end
  | Focus input =>
      match inputs w !! input with
      | Some i =>
          with_keyboard w
            (notifyVisibility (InputText.onFocusObservable i) (keyboard w),
             [])
      | None => (w, [])
      end
  | Blur input =>
      match inputs w !! input with
      | Some i =>
          with_keyboard w
            (notifyVisibility (InputText.onBlurObservable i) (keyboard w),
             [])
      | None => (w, [])
      end
  | Connect input => (connect input w, [])
  | Disconnect => (disconnect w, [])
  end.

Fixpoint run (events : list Event) (w : World) : World * list Call :=
  match events with
  | [] => (w, [])
  | e :: events =>
      let (w, calls) := step e w in
      let (w, calls') := run events w in
      (w, calls ++ calls')
  end.
End Events.

(** ** Readings of the panel used in the statements *)

(** The label of a button: the text of its first child. *)
Definition label (b : Button.t) : option string :=
  TextBlock.text <$> head (Button.children b).

(** The buttons of the panel, row by row. *)
Definition buttons (this : VirtualKeyboard.t) : list Button.t :=
  row ← omap id (children this);
  omap id (StackPanel.children row).

(** The labels on the panel. *)
Definition labels (this : VirtualKeyboard.t) : list string :=
  omap label (buttons this).

(** The labels of the keys of each row, and the number of keys per row. *)
Definition row_labels (row : StackPanel.t) : list string :=
  omap label (omap id (StackPanel.children row)).

Definition key_counts (this : VirtualKeyboard.t) : list nat :=
  (λ row, length (StackPanel.children row)) <$> omap id (children this).

(** Which property of a key, which field of the button and which default of
    the panel belong together in [_createKey]. *)
Definition style_fields
    : list ((KeyPropertySet.t → option string) * (Button.t → string)
            * (VirtualKeyboard.t → string)) :=
  [ (KeyPropertySet.width, Button.width, defaultButtonWidth);
    (KeyPropertySet.height, Button.height, defaultButtonHeight);
    (KeyPropertySet.color, Button.color, defaultButtonColor);
    (KeyPropertySet.background, Button.background, defaultButtonBackground);
    (KeyPropertySet.paddingLeft, Button.paddingLeft, defaultButtonPaddingLeft);
    (KeyPropertySet.paddingRight, Button.paddingRight,
     defaultButtonPaddingRight);
    (KeyPropertySet.paddingTop, Button.paddingTop, defaultButtonPaddingTop);
    (KeyPropertySet.paddingBottom, Button.paddingBottom,
     defaultButtonPaddingBottom) ].

(** Every observer registered anywhere has an identifier below the next
    unused one: [Observable.add] always makes a new observer. *)
Definition observers_known (w : World) : Prop :=
  Forall (λ id, (id < fresh w)%nat)
    (Observable.ids (onKeyPressObservable (keyboard w)))
  ∧ map_Forall (λ _ i,
      Forall (λ id, (id < fresh w)%nat)
        (Observable.ids (InputText.onFocusObservable i))
      ∧ Forall (λ id, (id < fresh w)%nat)
          (Observable.ids (InputText.onBlurObservable i)))
      (inputs w).

(** The subscriptions and the attachment of the keyboard: what [connect] and
    [disconnect] write, and nothing else does. *)
Definition wiring (k : VirtualKeyboard.t) :=
  (onKeyPressObservable k, _connectedInputText k, _onFocusObserver k,
   _onBlurObserver k, _onKeyPressObserver k).

(** The events of the user: everything but [connect] and [disconnect]. *)
Definition user_event (e : Event) : Prop :=
  match e with
  | Connect _ | Disconnect => False
  | _ => True
  end.

(** The shift states of the data model. *)
Definition shift_state_ok (s : Z) : Prop := s = 0 ∨ s = 1 ∨ s = 2.

(** What idempotence of [applyShiftState] asks of the case mapping on a
    label [t]: mapping twice is mapping once, and only the shift glyph maps to
    the shift glyph. *)
Definition case_stable `{CaseMapping} (t : string) : Prop :=
  toUpperCase (toUpperCase t) = toUpperCase t
  ∧ toLowerCase (toLowerCase t) = toLowerCase t
  ∧ (toUpperCase t = SHIFT → t = SHIFT)
  ∧ (toLowerCase t = SHIFT → t = SHIFT).

#[global] Instance case_stable_dec `{CaseMapping} (t : string) :
  Decision (case_stable t).
Proof. unfold case_stable. apply _. Defined.

(** The transition of the shift state in the words of the specification:
    the shift glyph maps [s] to [(s+1) mod 3], a literal key maps 1 to 0 and
    leaves the other states, backspace and enter leave every state. *)
Definition spec_shift_transition (key : string) (s : Z) : Z :=
  if String.eqb key SHIFT then (s + 1) mod 3
  else if String.eqb key BACKSPACE || String.eqb key ENTER then s
  else if s =? 1 then 0 else s.

(** The labels of the five rows. *)
Definition default_rows : list (list string) :=
  [ ["1"; "2"; "3"; "4"; "5"; "6"; "7"; "8"; "9"; "0"; BACKSPACE];
    ["q"; "w"; "e"; "r"; "t"; "y"; "u"; "i"; "o"; "p"];
    ["a"; "s"; "d"; "f"; "g"; "h"; "j"; "k"; "l"; ";"; "'"; ENTER];
    [SHIFT; "z"; "x"; "c"; "v"; "b"; "n"; "m"; ","; "."; "/"];
    [" "] ].

(** A scene to evaluate in: the default layout and one input nobody has
    subscribed to yet. *)
Definition control0 : Control.t := Control.mk true "#000" 0 0 0.

Definition world0 : World :=
  mkWorld (CreateDefaultLayout control0) {[ 0%nat := InputText.mk [] [] ]} 0.

(** The default layout attached to that input. *)
Definition keyboard0 : VirtualKeyboard.t := keyboard (connect 0%nat world0).

(** ** Further readings of the source *)

(** [_getTypeName()] *)
Definition _getTypeName (this : VirtualKeyboard.t) : string :=
  "VirtualKeyboard".

(** [get connectedInputText()] *)
Definition connectedInputText (this : VirtualKeyboard.t) : option loc :=
  _connectedInputText this.

(** A key that the router forwards as a character. *)
Definition literal (key : string) : Prop :=
  key ≠ SHIFT ∧ key ≠ BACKSPACE ∧ key ≠ ENTER.


(** A button without what [applyShiftState] may write: the colour, the
    thickness and the first child. *)
Definition button_frame (b : Button.t) : Button.t :=
  Button.set_color ""
    (Button.set_thickness 0 (Button.set_children (tail (Button.children b)) b)).

(** The rows of the panel with the frames of their buttons. *)
Definition row_frame (row : StackPanel.t) : StackPanel.t :=
  StackPanel.set_children
    (fmap (M := option) button_frame <$> StackPanel.children row) row.

Definition layout_frame (this : VirtualKeyboard.t)
    : list (option StackPanel.t) :=
  fmap (M := option) row_frame <$> children this.

(** The pointer-up subscription of a key made by [_createKey]: one closure,
    which emits the key the button is named after. *)
Definition emits_own_key (b : Button.t) : Prop :=
  Button.onPointerUpObservable b = [NotifyKeyPress (Button.name b)].

(** What a button made by [_createKey] has whatever its property set. *)
Definition fresh_key (this : VirtualKeyboard.t) (key : string)
    (b : Button.t) : Prop :=
  Button.name b = key
  ∧ Button.children b = [TextBlock.mk key]
  ∧ Button.thickness b = 0
  ∧ Button.isFocusInvisible b = true
  ∧ Button.shadowColor b = shadowColor this
  ∧ Button.shadowBlur b = shadowBlur this
  ∧ Button.shadowOffsetX b = shadowOffsetX this
  ∧ Button.shadowOffsetY b = shadowOffsetY this
  ∧ emits_own_key b.

(** The shape of the calls of the router: [processKey(8)], [processKey(13)],
    [processKey(-1, c)], and [applyShiftState] with one of the three
    states. *)
Definition call_well_formed (c : Call) : Prop :=
  match c with
  | ProcessKey _ keyCode key =>
      (keyCode = 8 ∧ key = None) ∨ (keyCode = 13 ∧ key = None)
      ∨ (keyCode = -1 ∧ is_Some key)
  | ApplyShiftState s => shift_state_ok s
  end.

(** The input a call goes to, if it goes to one. *)
Definition call_target (c : Call) : option loc :=
  match c with
  | ProcessKey input _ _ => Some input
  | ApplyShiftState _ => None
  end.

(** The inputs the keyboard is attached to at some point of a run: the one
    at the start and those of the [Connect] events. *)
Definition attached_during (events : list Event) (w : World) : list loc :=
  option_list (_connectedInputText (keyboard w))
  ++ omap (λ e, match e with Connect input => Some input | _ => None end)
       events.

(** A scene with two inputs, and the keyboard after two calls of [connect]
    and one of [disconnect]. *)
Definition world2 : World :=
  mkWorld (CreateDefaultLayout control0)
    {[ 0%nat := InputText.mk [] []; 1%nat := InputText.mk [] [] ]} 0.

Definition world2_reconnected : World :=
  disconnect (connect 1%nat (connect 0%nat world2)).

(** * Properties *)

(** ** Setters and readers *)

Lemma shiftState_set_shiftState v k : shiftState (set_shiftState v k) = v.
Proof. reflexivity. Qed.

Lemma set_shiftState_twice u v k :
  set_shiftState u (set_shiftState v k) = set_shiftState u k.
Proof. reflexivity. Qed.

Lemma set_shiftState_same k : set_shiftState (shiftState k) k = k.
Proof. by destruct k. Qed.

Lemma set_children_same k : set_children (children k) k = k.
Proof. by destruct k. Qed.

Lemma truthy_pos s : 0 <= s → truthy s = (0 <? s).
Proof.
  intros Hs. unfold truthy.
  destruct (Z.eqb_spec s 0) as [->|Hne]; simpl; [done|].
  symmetry. apply Z.ltb_lt. lia.
Qed.

Lemma glyphs_differ :
  String.eqb BACKSPACE SHIFT = false ∧ String.eqb ENTER SHIFT = false
  ∧ String.eqb ENTER BACKSPACE = false.
Proof. by vm_compute. Qed.

(** ** The key router *)

Section Router.
Context `{CaseMapping}.

Lemma applyShiftState_shiftState s k :
  shiftState (applyShiftState s k) = shiftState k.
Proof. reflexivity. Qed.

Lemma applyShiftState_connected s k :
  _connectedInputText (applyShiftState s k) = _connectedInputText k.
Proof. reflexivity. Qed.

Lemma applyShiftState_observable s k :
  onKeyPressObservable (applyShiftState s k) = onKeyPressObservable k.
Proof. reflexivity. Qed.

(** The shift key: one run of the router on a connected panel. *)
Lemma onKeyPress_shift k input :
  _connectedInputText k = Some input →
  let s' := if 2 <? shiftState k + 1 then 0 else shiftState k + 1 in
  onKeyPress SHIFT k
  = (applyShiftState s' (set_shiftState s' k), [ApplyShiftState s']).
Proof.
  intros Hc. unfold onKeyPress. rewrite Hc, String.eqb_refl.
  rewrite shiftState_set_shiftState.
  destruct (2 <? shiftState k + 1); [|done].
  by rewrite set_shiftState_twice, shiftState_set_shiftState.
Qed.

(** A literal key: one run of the router on a connected panel. *)
Lemma onKeyPress_literal k input key :
  _connectedInputText k = Some input →
  key ≠ SHIFT → key ≠ BACKSPACE → key ≠ ENTER →
  let forwarded :=
    ProcessKey input (-1)
      (Some (if truthy (shiftState k) then toUpperCase key else key)) in
  onKeyPress key k
  = if shiftState k =? 1
    then (applyShiftState 0 (set_shiftState 0 k),
          [forwarded; ApplyShiftState 0])
    else (k, [forwarded]).
Proof.
  intros Hc Hs Hb He. unfold onKeyPress. rewrite Hc.
  apply String.eqb_neq in Hs, Hb, He. by rewrite Hs, Hb, He.
Qed.

(** The router never touches the attachment nor the subscriptions. *)
Lemma onKeyPress_connected key k :
  _connectedInputText (onKeyPress key k).1 = _connectedInputText k.
Proof.
  unfold onKeyPress. destruct (_connectedInputText k) eqn:Hc; [|done].
  repeat case_match; simpl; by rewrite ?Hc.
Qed.

Lemma onKeyPress_observable key k :
  onKeyPressObservable (onKeyPress key k).1 = onKeyPressObservable k.
Proof.
  unfold onKeyPress. destruct (_connectedInputText k); [|done].
  repeat case_match; done.
Qed.

(** One run of the router keeps the shift state among 0, 1 and 2. *)
Lemma onKeyPress_shift_state_ok key k :
  shift_state_ok (shiftState k) →
  shift_state_ok (shiftState (onKeyPress key k).1).
Proof.
  unfold shift_state_ok, onKeyPress. intros Hs.
  destruct (_connectedInputText k); [|done].
  repeat case_match; simpl in *; try done;
    repeat match goal with
           | E : (_ <? _) = _ |- _ =>
               first [apply Z.ltb_lt in E | apply Z.ltb_ge in E]
           end; lia.
Qed.

Lemma pressKeys_connected keys k :
  _connectedInputText (pressKeys keys k).1 = _connectedInputText k.
Proof.
  revert k. induction keys as [|key keys IH]; intros k; simpl; [done|].
  pose proof (onKeyPress_connected key k) as Hk.
  destruct (onKeyPress key k) as [k1 c1]. specialize (IH k1).
  destruct (pressKeys keys k1) as [k2 c2]. simpl in *. congruence.
Qed.

Lemma pressKeys_shift_state_ok keys k :
  shift_state_ok (shiftState k) →
  shift_state_ok (shiftState (pressKeys keys k).1).
Proof.
  revert k. induction keys as [|key keys IH]; intros k Hs; simpl; [done|].
  pose proof (onKeyPress_shift_state_ok key k Hs) as Hk.
  destruct (onKeyPress key k) as [k1 c1]. specialize (IH k1 Hk).
  by destruct (pressKeys keys k1) as [k2 c2].
Qed.

Lemma pressKeys_app keys keys' k :
  pressKeys (keys ++ keys') k
  = let (k1, c1) := pressKeys keys k in
    let (k2, c2) := pressKeys keys' k1 in (k2, c1 ++ c2).
Proof.
  revert k. induction keys as [|key keys IH]; intros k; simpl.
  - by destruct (pressKeys keys' k).
  - destruct (onKeyPress key k) as [k1 c1]. rewrite IH.
    destruct (pressKeys keys k1) as [k2 c2].
    destruct (pressKeys keys' k2) as [k3 c3]. by rewrite app_assoc.
Qed.

(** An event on a panel with one subscription is one run of the router. *)
Lemma notifyKeyPress_single key k id :
  onKeyPressObservable k = [(id, RouteKey)] →
  notifyKeyPress key k = onKeyPress key k.
Proof.
  intros Ho. unfold notifyKeyPress. rewrite Ho. simpl.
  destruct (onKeyPress key k) as [k1 c1]. by rewrite app_nil_r.
Qed.

(** C1: on a connected panel that started in shift state 0 and has handled
    any sequence of key presses, pressing the shift glyph sets [shiftState]
    to [(s+1) mod 3], calls [applyShiftState] with the new state and makes
    no call of [processKey]; three presses bring the state back, to 0 when
    counted from the start. *)
Theorem shift_key_cycles (k : VirtualKeyboard.t) (input : loc)
    (keys : list string) :
  _connectedInputText k = Some input →
  shiftState k = 0 →
  let k1 := (pressKeys keys k).1 in
  let s' := (shiftState k1 + 1) mod 3 in
  onKeyPress SHIFT k1
  = (applyShiftState s' (set_shiftState s' k1), [ApplyShiftState s'])
  ∧ shiftState (onKeyPress SHIFT k1).1 = s'
  ∧ shiftState (pressKeys [SHIFT; SHIFT; SHIFT] k1).1 = shiftState k1
  ∧ shiftState (pressKeys [SHIFT; SHIFT; SHIFT] k).1 = 0.
Proof.
  intros Hc Hs k1 s'.
  assert (Hc1 : _connectedInputText k1 = Some input)
    by (unfold k1; by rewrite pressKeys_connected).
  assert (Hs1 : shift_state_ok (shiftState k1)).
  { apply pressKeys_shift_state_ok. left. exact Hs. }
  assert (Hstep : ∀ k2, _connectedInputText k2 = Some input →
            shift_state_ok (shiftState k2) →
            (onKeyPress SHIFT k2).1
            = applyShiftState ((shiftState k2 + 1) mod 3)
                (set_shiftState ((shiftState k2 + 1) mod 3) k2)
            ∧ (onKeyPress SHIFT k2).2
              = [ApplyShiftState ((shiftState k2 + 1) mod 3)]).
  { intros k2 Hc2 Hs2. rewrite (onKeyPress_shift k2 input Hc2).
    assert ((if 2 <? shiftState k2 + 1 then 0 else shiftState k2 + 1)
            = (shiftState k2 + 1) mod 3) as ->; [|done].
    destruct Hs2 as [->|[->| ->]]; reflexivity. }
  assert (Hthree : ∀ k2, _connectedInputText k2 = Some input →
            shift_state_ok (shiftState k2) →
            shiftState (pressKeys [SHIFT; SHIFT; SHIFT] k2).1 = shiftState k2).
  { intros k2 Hc2 Hs2. simpl.
    pose proof (Hstep k2 Hc2 Hs2) as [E1 _].
    pose proof (onKeyPress_connected SHIFT k2) as C1.
    pose proof (onKeyPress_shift_state_ok SHIFT k2 Hs2) as O1.
    destruct (onKeyPress SHIFT k2) as [k3 c3]. simpl in E1, C1, O1.
    rewrite Hc2 in C1.
    pose proof (Hstep k3 C1 O1) as [E2 _].
    pose proof (onKeyPress_connected SHIFT k3) as C2.
    pose proof (onKeyPress_shift_state_ok SHIFT k3 O1) as O2.
    destruct (onKeyPress SHIFT k3) as [k4 c4]. simpl in E2, C2, O2.
    rewrite C1 in C2.
    pose proof (Hstep k4 C2 O2) as [E3 _].
    destruct (onKeyPress SHIFT k4) as [k5 c5]. simpl in E3 |- *.
    rewrite E3, applyShiftState_shiftState, shiftState_set_shiftState.
    rewrite E2, applyShiftState_shiftState, shiftState_set_shiftState.
    rewrite E1, applyShiftState_shiftState, shiftState_set_shiftState.
    destruct Hs2 as [->|[->| ->]]; reflexivity. }
  destruct (Hstep k1 Hc1 Hs1) as [E1 E2].
  split; [|split; [|split]].
  - destruct (onKeyPress SHIFT k1) as [k2 c2]. simpl in *. by subst.
  - by rewrite E1.
  - by apply Hthree.
  - rewrite (Hthree k Hc); [done|]. by left.
Qed.

(** C2: a literal key on a connected panel is forwarded through
    [processKey(-1, c)], with [c] the upper-cased key when [shiftState > 0]
    and the key itself otherwise; from state 1 the state is then reset to 0
    and [applyShiftState(0)] is called, in every other state (2 included)
    nothing else happens.  Shift states are not negative. *)
Theorem literal_key_forwarded (k : VirtualKeyboard.t) (input : loc)
    (key : string) :
  _connectedInputText k = Some input →
  key ≠ SHIFT → key ≠ BACKSPACE → key ≠ ENTER →
  0 <= shiftState k →
  let forwarded :=
    ProcessKey input (-1)
      (Some (if 0 <? shiftState k then toUpperCase key else key)) in
  (shiftState k = 1 →
     onKeyPress key k
     = (applyShiftState 0 (set_shiftState 0 k), [forwarded; ApplyShiftState 0])
     ∧ shiftState (onKeyPress key k).1 = 0)
  ∧ (shiftState k ≠ 1 → onKeyPress key k = (k, [forwarded]))
  ∧ (shiftState k = 2 → shiftState (onKeyPress key k).1 = 2).
Proof.
  intros Hc Hs Hb He Hpos forwarded.
  pose proof (onKeyPress_literal k input key Hc Hs Hb He) as Hk.
  simpl in Hk. rewrite (truthy_pos _ Hpos) in Hk. fold forwarded in Hk.
  split; [|split].
  - intros E. rewrite E in Hk. simpl in Hk. by rewrite Hk.
  - intros E. apply Z.eqb_neq in E. by rewrite E in Hk.
  - intros E. rewrite E in Hk. simpl in Hk. by rewrite Hk.
Qed.

(** C3: backspace and enter on a connected panel make one call of
    [processKey], with key code 8 and 13 and no character, and leave the
    keyboard, its shift state included, as it was. *)
Theorem control_keys_forward_commands (k : VirtualKeyboard.t) (input : loc) :
  _connectedInputText k = Some input →
  onKeyPress BACKSPACE k = (k, [ProcessKey input 8 None])
  ∧ onKeyPress ENTER k = (k, [ProcessKey input 13 None])
  ∧ shiftState (onKeyPress BACKSPACE k).1 = shiftState k
  ∧ shiftState (onKeyPress ENTER k).1 = shiftState k.
Proof.
  intros Hc. destruct glyphs_differ as (Hb & He & Hbe).
  unfold onKeyPress. rewrite Hc, Hb, He, Hbe, String.eqb_refl. done.
Qed.

(** C10: with no input attached the router does nothing: the keyboard is
    unchanged and no call is made, for the shift glyph as for any key. *)
Theorem router_idle_when_detached (k : VirtualKeyboard.t) (key : string) :
  _connectedInputText k = None →
  onKeyPress key k = (k, [])
  ∧ onKeyPress SHIFT k = (k, [])
  ∧ shiftState (onKeyPress key k).1 = shiftState k.
Proof. intros Hc. unfold onKeyPress. by rewrite Hc. Qed.

End Router.

(** ** The shift state as an invariant of the scene *)

Lemma notifyVisibility_shiftState observers k :
  shiftState (notifyVisibility observers k) = shiftState k.
Proof.
  unfold notifyVisibility. revert k.
  induction observers as [|[id [v]] observers IH]; intros k; simpl; [done|].
  by rewrite IH.
Qed.

Lemma connect_shiftState input w :
  shiftState (keyboard (connect input w)) = shiftState (keyboard w).
Proof. reflexivity. Qed.

Lemma disconnect_shiftState w :
  shiftState (keyboard (disconnect w)) = shiftState (keyboard w).
Proof. unfold disconnect. by destruct (_connectedInputText (keyboard w)). Qed.

Section Invariant.
Context `{CaseMapping}.

Lemma notifyObservers_shift_state_ok observers key k :
  shift_state_ok (shiftState k) →
  shift_state_ok (shiftState (notifyObservers observers key k).1).
Proof.
  revert k. induction observers as [|[id []] observers IH]; intros k Hs;
    simpl; [done|].
  pose proof (onKeyPress_shift_state_ok key k Hs) as Hk.
  destruct (onKeyPress key k) as [k1 c1]. specialize (IH k1 Hk).
  by destruct (notifyObservers observers key k1).
Qed.

Lemma pointerUp_shift_state_ok callbacks k :
  shift_state_ok (shiftState k) →
  shift_state_ok (shiftState (pointerUp callbacks k).1).
Proof.
  revert k. induction callbacks as [|[key] callbacks IH]; intros k Hs;
    simpl; [done|].
  pose proof (notifyObservers_shift_state_ok (onKeyPressObservable k) key k Hs)
    as Hk.
  unfold notifyKeyPress.
  destruct (notifyObservers (onKeyPressObservable k) key k) as [k1 c1].
  specialize (IH k1 Hk). by destruct (pointerUp callbacks k1).
Qed.

Lemma step_shift_state_ok e w :
  shift_state_ok (shiftState (keyboard w)) →
  shift_state_ok (shiftState (keyboard (step e w).1)).
Proof.
  intros Hs. destruct e as [key|row column|input|input|input|]; simpl.
  - by apply notifyObservers_shift_state_ok.
  - destruct (button_at row column (keyboard w)); [|done].
    by apply pointerUp_shift_state_ok.
  - destruct (inputs w !! input); [|done]. simpl.
    by rewrite notifyVisibility_shiftState.
  - destruct (inputs w !! input); [|done]. simpl.
    by rewrite notifyVisibility_shiftState.
  - done.
  - by rewrite disconnect_shiftState.
Qed.

Lemma run_shift_state_ok events w :
  shift_state_ok (shiftState (keyboard w)) →
  shift_state_ok (shiftState (keyboard (run events w).1)).
Proof.
  revert w. induction events as [|e events IH]; intros w Hs; simpl; [done|].
  pose proof (step_shift_state_ok e w Hs) as Hw.
  destruct (step e w) as [w1 c1]. specialize (IH w1 Hw).
  by destruct (run events w1).
Qed.

(** After one [connect] on a keyboard nobody listens to, the router is the
    only subscription, and a sequence of key-press events is the sequence of
    runs of the router that [pressKeys] makes. *)
Lemma connect_single_subscription input w :
  onKeyPressObservable (keyboard w) = [] →
  onKeyPressObservable (keyboard (connect input w))
  = [(S (S (fresh w)), RouteKey)]
  ∧ _connectedInputText (keyboard (connect input w)) = Some input.
Proof. intros Ho. simpl. by rewrite Ho. Qed.

Lemma run_key_presses_single keys w id :
  onKeyPressObservable (keyboard w) = [(id, RouteKey)] →
  keyboard (run (KeyPress <$> keys) w).1 = (pressKeys keys (keyboard w)).1
  ∧ (run (KeyPress <$> keys) w).2 = (pressKeys keys (keyboard w)).2.
Proof.
  revert w. induction keys as [|key keys IH]; intros w Ho; [done|].
  rewrite fmap_cons. cbn [run step pressKeys].
  rewrite (notifyKeyPress_single key (keyboard w) id Ho).
  pose proof (onKeyPress_observable key (keyboard w)) as Ho1.
  destruct (onKeyPress key (keyboard w)) as [k1 c1].
  unfold with_keyboard. cbn [fst snd] in *.
  destruct (IH (mkWorld k1 (inputs w) (fresh w))) as [Hk Hc].
  { cbn [keyboard]. by rewrite Ho1. }
  cbn [keyboard] in Hk, Hc.
  destruct (run (KeyPress <$> keys) (mkWorld k1 (inputs w) (fresh w)))
    as [w2 c2].
  destruct (pressKeys keys k1) as [k2 c2']. cbn [fst snd] in *.
  split; congruence.
Qed.

(** On the states 0, 1 and 2 the router moves the shift state as the
    specification words it. *)
Lemma onKeyPress_spec_transition key k input :
  _connectedInputText k = Some input →
  shift_state_ok (shiftState k) →
  shiftState (onKeyPress key k).1 = spec_shift_transition key (shiftState k).
Proof.
  intros Hc Hs. unfold onKeyPress, spec_shift_transition. rewrite Hc.
  destruct (String.eqb key SHIFT).
  - destruct Hs as [->|[->| ->]]; reflexivity.
  - destruct (String.eqb key BACKSPACE); [done|].
    destruct (String.eqb key ENTER); [done|]. simpl.
    by destruct (shiftState k =? 1).
Qed.

(** C9: [shiftState] stays in {0, 1, 2}.  From a keyboard in the initial
    state 0, whatever events the scene goes through (key presses, released
    buttons, focus and blur, connect and disconnect), the state is 0, 1 or 2;
    and in the state reached, a run of the router moves it as the
    specification says ([(s+1) mod 3] for the shift glyph, 1 to 0 for a
    literal key, fixed otherwise) when an input is attached, and not at all
    when none is. *)
Theorem shiftState_in_range (w : World) (events : list Event) :
  shiftState (keyboard w) = 0 →
  let k := keyboard (run events w).1 in
  shift_state_ok (shiftState k)
  ∧ ∀ key,
      shift_state_ok (shiftState (onKeyPress key k).1)
      ∧ shiftState (onKeyPress key k).1
        = match _connectedInputText k with
          | Some _ => spec_shift_transition key (shiftState k)
          | None => shiftState k
          end.
Proof.
  intros Hs k.
  assert (Hk : shift_state_ok (shiftState k)).
  { apply run_shift_state_ok. by left. }
  split; [done|]. intros key. split.
  - by apply onKeyPress_shift_state_ok.
  - destruct (_connectedInputText k) as [input|] eqn:Hc.
    + by apply onKeyPress_spec_transition with input.
    + unfold onKeyPress. by rewrite Hc.
Qed.

End Invariant.

(** ** Applying a shift state *)

Lemma elem_of_buttons (this : VirtualKeyboard.t) (row : StackPanel.t)
    (b : Button.t) :
  Some row ∈ children this → Some b ∈ StackPanel.children row →
  b ∈ buttons this.
Proof.
  intros Hr Hb. unfold buttons. apply list_elem_of_bind. exists row. split.
  - apply list_elem_of_omap. by exists (Some b).
  - apply list_elem_of_omap. by exists (Some row).
Qed.

Lemma elem_of_labels (this : VirtualKeyboard.t) (b : Button.t) (t : string) :
  b ∈ buttons this → label b = Some t → t ∈ labels this.
Proof. intros Hb Ht. unfold labels. apply list_elem_of_omap. by exists b. Qed.

Section ApplyShiftState.
Context `{CaseMapping}.

(** The loop bodies read three fields of the keyboard and nothing else. *)
Lemma applyShiftState_button_set_children v this s b :
  applyShiftState_button (set_children v this) s b
  = applyShiftState_button this s b.
Proof. reflexivity. Qed.

(** What one pass does to a button that has a label. *)
Lemma applyShiftState_button_labelled this s b tb others :
  Button.children b = tb :: others →
  ∃ b', applyShiftState_button this s (Some b) = Some b'
    ∧ Button.children b'
      = TextBlock.mk (if 0 <? s then toUpperCase (TextBlock.text tb)
                      else toLowerCase (TextBlock.text tb)) :: others
    ∧ (TextBlock.text tb = SHIFT →
         Button.color b'
         = (if s =? 0 then defaultButtonColor this else shiftButtonColor this)
         ∧ Button.thickness b'
           = (if 1 <? s then selectedShiftThickness this else 0))
    ∧ (TextBlock.text tb ≠ SHIFT →
         Button.color b' = Button.color b
         ∧ Button.thickness b' = Button.thickness b).
Proof.
  intros Hc. unfold applyShiftState_button. rewrite Hc.
  eexists. split; [reflexivity|].
  destruct (String.eqb_spec (TextBlock.text tb) SHIFT) as [E|E]; simpl.
  - split; [done|]. split; [|done]. intros _. unfold truthy.
    by destruct (s =? 0).
  - split; [done|]. split; [done|]. by intros _.
Qed.

Lemma applyShiftState_button_idempotent this s b :
  (∀ t, label b = Some t → case_stable t) →
  applyShiftState_button this s (applyShiftState_button this s (Some b))
  = applyShiftState_button this s (Some b).
Proof.
  intros Hst. destruct b as [n c wd ht co bg pl pr pt pb th fi sc sb sx sy po].
  destruct c as [|[t] others]; [done|].
  destruct (Hst t eq_refl) as (Hup & Hlow & Hups & Hlows).
  unfold applyShiftState_button. simpl.
  destruct (0 <? s).
  - rewrite Hup. destruct (String.eqb_spec t SHIFT) as [->|Ht]; simpl.
    + by destruct (String.eqb (toUpperCase SHIFT) SHIFT).
    + destruct (String.eqb_spec (toUpperCase t) SHIFT) as [E|E]; [|done].
      by apply Hups in E.
  - rewrite Hlow. destruct (String.eqb_spec t SHIFT) as [->|Ht]; simpl.
    + by destruct (String.eqb (toLowerCase SHIFT) SHIFT).
    + destruct (String.eqb_spec (toLowerCase t) SHIFT) as [E|E]; [|done].
      by apply Hlows in E.
Qed.

(** C5: [applyShiftState] is idempotent.  Where the case mapping of the
    platform maps each label of the panel to a fixed point and maps nothing
    but the shift glyph to the shift glyph, a second call with the same
    state leaves the keyboard, and so the text, colour and thickness of
    every button, as the first call left it. *)
Theorem applyShiftState_idempotent (this : VirtualKeyboard.t) (s : Z) :
  Forall case_stable (labels this) →
  applyShiftState s (applyShiftState s this) = applyShiftState s this.
Proof.
  intros Hst. rewrite Forall_forall in Hst.
  assert (Hrows : applyShiftState_row this s
                    <$> (applyShiftState_row this s <$> children this)
                  = applyShiftState_row this s <$> children this).
  { rewrite <- list_fmap_compose. apply Forall_fmap_ext, Forall_forall.
    intros [row|] Hrow; [|done]. simpl.
    unfold StackPanel.set_children. simpl. do 2 f_equal.
    rewrite <- list_fmap_compose. apply Forall_fmap_ext, Forall_forall.
    intros [b|] Hb; [|done].
    apply (applyShiftState_button_idempotent this s b).
    intros t Ht. apply Hst. apply elem_of_labels with b; [|done].
    by apply elem_of_buttons with row. }
  unfold applyShiftState.
  change (set_children
            (applyShiftState_row this s
               <$> (applyShiftState_row this s <$> children this))
            (set_children (applyShiftState_row this s <$> children this) this)
          = set_children (applyShiftState_row this s <$> children this) this).
  by rewrite Hrows.
Qed.

(** C8, with the condition on the colour as the code has it: for every
    integer state, a button labelled with the shift glyph gets the colour
    [shiftButtonColor] when the state is not zero (for a state that is not
    negative: when it is greater than zero) and the default colour when it
    is zero, and the thickness [selectedShiftThickness] when the state is
    greater than 1 and zero otherwise; every label is upper-cased when the
    state is greater than zero and lower-cased otherwise; other buttons
    keep colour and thickness; a panel with no rows is left as it is. *)
Theorem applyShiftState_effect (this : VirtualKeyboard.t) (s : Z) :
  (children this = [] → applyShiftState s this = this)
  ∧ ∀ (i j : nat) row b tb others,
      children this !! i = Some (Some row) →
      StackPanel.children row !! j = Some (Some b) →
      Button.children b = tb :: others →
      ∃ row' b',
        children (applyShiftState s this) !! i = Some (Some row')
        ∧ StackPanel.children row' !! j = Some (Some b')
        ∧ label b'
          = Some (if 0 <? s then toUpperCase (TextBlock.text tb)
                  else toLowerCase (TextBlock.text tb))
        ∧ (TextBlock.text tb = SHIFT →
             Button.color b'
             = (if s =? 0 then defaultButtonColor this
                else shiftButtonColor this)
             ∧ (0 <= s →
                  Button.color b'
                  = (if 0 <? s then shiftButtonColor this
                     else defaultButtonColor this))
             ∧ Button.thickness b'
               = (if 1 <? s then selectedShiftThickness this else 0))
        ∧ (TextBlock.text tb ≠ SHIFT →
             Button.color b' = Button.color b
             ∧ Button.thickness b' = Button.thickness b).
Proof.
  split.
  - intros Hc. unfold applyShiftState. rewrite Hc. simpl.
    rewrite <- Hc. apply set_children_same.
  - intros i j row b tb others Hrow Hb Hc.
    destruct (applyShiftState_button_labelled this s b tb others Hc)
      as (b' & Eb & Ec & Hshift & Hother).
    exists (StackPanel.set_children
              (applyShiftState_button this s <$> StackPanel.children row) row),
      b'.
    split; [|split; [|split; [|split]]].
    + unfold applyShiftState. simpl. rewrite list_lookup_fmap, Hrow.
      reflexivity.
    + simpl. rewrite list_lookup_fmap, Hb, <- Eb. reflexivity.
    + unfold label. by rewrite Ec.
    + intros Ht. destruct (Hshift Ht) as [Hcol Hth].
      split; [done|]. split; [|done]. intros Hs. rewrite Hcol.
      destruct (Z.eqb_spec s 0) as [->|Hne]; [done|].
      assert (Hlt : (0 <? s) = true) by (apply Z.ltb_lt; lia).
      by rewrite Hlt.
    + done.
Qed.

End ApplyShiftState.

(** ** Rows of keys *)

Lemma addKeys_children this keys propertySets rest i panel :
  StackPanel.children (addKeys this keys propertySets i rest panel)
  = StackPanel.children panel
    ++ imap (λ j key,
               Some (_createKey this key
                       (properties_at keys propertySets (i + j))))
         rest.
Proof.
  revert i panel. induction rest as [|key rest IH]; intros i panel; simpl.
  - by rewrite app_nil_r.
  - rewrite IH. simpl. rewrite <- app_assoc. simpl.
    rewrite Nat.add_0_r. do 2 f_equal.
    apply imap_ext. intros j x _. simpl. by rewrite Nat.add_succ_r.
Qed.

Lemma addKeys_flags this keys propertySets rest i panel :
  StackPanel.isVertical (addKeys this keys propertySets i rest panel)
  = StackPanel.isVertical panel
  ∧ StackPanel.isFocusInvisible (addKeys this keys propertySets i rest panel)
    = StackPanel.isFocusInvisible panel.
Proof.
  revert i panel. induction rest as [|key rest IH]; intros i panel; simpl;
    [done|]. by destruct (IH (S i) (StackPanel.addControl
      (_createKey this key (properties_at keys propertySets i)) panel)).
Qed.

(** Each field of a new key is the source's
    [propertySet && propertySet.f ? propertySet.f : this.defaultF]. *)
Lemma createKey_field this key propertySet pf bf df :
  (pf, bf, df) ∈ style_fields →
  bf (_createKey this key propertySet) = or_default propertySet pf (df this).
Proof.
  unfold style_fields. intros Hin.
  repeat (apply elem_of_cons in Hin as [Hin|Hin];
          [injection Hin as -> -> ->; reflexivity|]).
  by apply elem_of_nil in Hin.
Qed.

Lemma or_default_set {P} (p : P) field fallback v :
  field p = Some v → v ≠ "" → or_default (Some p) field fallback = v.
Proof.
  intros E Hv. unfold or_default, truthy_str. rewrite E.
  apply String.eqb_neq in Hv. by rewrite Hv.
Qed.

Lemma or_default_unset {P} (p : P) field fallback :
  field p = None ∨ field p = Some "" →
  or_default (Some p) field fallback = fallback.
Proof. unfold or_default, truthy_str. by intros [-> | ->]. Qed.

(** C4, with the fall-back of the code for each field: [addKeysRow] appends
    one row with one button per label, labelled with it; when the style
    list is given and as long as the label list, a field of a button is the
    field of the matching entry if the entry sets it to a non-empty string
    and the panel's default otherwise; when the style list is absent or of
    another length, every field is the panel's default at call time. *)
Theorem addKeysRow_styles (this : VirtualKeyboard.t) (keys : list string)
    (propertySets : option (list KeyPropertySet.t)) :
  ∃ row,
    children (addKeysRow keys propertySets this) = children this ++ [Some row]
    ∧ length (StackPanel.children row) = length keys
    ∧ ∀ (i : nat) key, keys !! i = Some key →
        ∃ b, StackPanel.children row !! i = Some (Some b)
          ∧ label b = Some key
          ∧ ∀ pf bf df, (pf, bf, df) ∈ style_fields →
              (∀ sets e v,
                 propertySets = Some sets → length sets = length keys →
                 sets !! i = Some e → pf e = Some v → v ≠ "" → bf b = v)
              ∧ (∀ sets e,
                   propertySets = Some sets → length sets = length keys →
                   sets !! i = Some e → pf e = None ∨ pf e = Some "" →
                   bf b = df this)
              ∧ (propertySets = None → bf b = df this)
              ∧ (∀ sets,
                   propertySets = Some sets → length sets ≠ length keys →
                   bf b = df this).
Proof.
  eexists. split; [reflexivity|].
  rewrite addKeys_children. simpl. split; [by rewrite length_imap|].
  intros i key Hkey.
  exists (_createKey this key (properties_at keys propertySets i)).
  split; [by rewrite list_lookup_imap, Hkey|]. split; [done|].
  intros pf bf df Hin. rewrite (createKey_field _ _ _ _ _ _ Hin).
  unfold properties_at. split; [|split; [|split]].
  - intros sets e v -> Hlen He Hv Hne.
    apply Nat.eqb_eq in Hlen. rewrite Hlen, He. by apply or_default_set.
  - intros sets e -> Hlen He Hv.
    apply Nat.eqb_eq in Hlen. rewrite Hlen, He. by apply or_default_unset.
  - by intros ->.
  - intros sets -> Hlen. apply Nat.eqb_neq in Hlen. by rewrite Hlen.
Qed.

(** ** The default layout *)

(** C6, with the width the code gives the space bar.  The default layout
    has exactly 5 rows, of 11, 10, 12, 11 and 1 keys: the digits and
    backspace, the top letters, the home letters and enter, shift and the
    bottom letters, and the space bar.  Every key has the default width of
    40 pixels but the space bar, whose width of 200 pixels, five times the
    default, is the one field its property set gives; its other fields are
    the defaults. *)
Theorem CreateDefaultLayout_rows (super : Control.t) :
  let k := CreateDefaultLayout super in
  length (children k) = 5%nat
  ∧ Forall is_Some (children k)
  ∧ key_counts k = [11; 10; 12; 11; 1]%nat
  ∧ row_labels <$> omap id (children k) = default_rows
  ∧ Button.width <$> buttons k = replicate 44 "40px" ++ ["200px"]
  ∧ defaultButtonWidth k = "40px"
  ∧ px_value (defaultButtonWidth k) = Some 40
  ∧ ∃ space,
      button_at 4 0 k = Some space
      ∧ label space = Some " "
      ∧ space
        = _createKey (VirtualKeyboard.new super) " "
            (Some (KeyPropertySet.mk (Some "200px") None None None None None
                     None None))
      ∧ Button.width space = "200px"
      ∧ px_value (Button.width space) = Some (5 * 40)
      ∧ Button.height space = defaultButtonHeight k
      ∧ Button.color space = defaultButtonColor k
      ∧ Button.background space = defaultButtonBackground k
      ∧ Button.paddingLeft space = defaultButtonPaddingLeft k
      ∧ Button.paddingRight space = defaultButtonPaddingRight k
      ∧ Button.paddingTop space = defaultButtonPaddingTop k
      ∧ Button.paddingBottom space = defaultButtonPaddingBottom k.
Proof.
  destruct super as [v sc sb sx sy]. vm_compute.
  split; [reflexivity|]. split; [repeat constructor; by eexists|].
  do 5 (split; [reflexivity|]).
  eexists. split; [reflexivity|]. do 10 (split; [reflexivity|]). reflexivity.
Qed.

(** C6 as stated fails: the space bar is 200 pixels wide and the default
    width is 40 pixels, which is not half of it. *)
Lemma space_bar_width_not_double :
  let k := CreateDefaultLayout control0 in
  ∃ space,
    button_at 4 0 k = Some space
    ∧ label space = Some " "
    ∧ px_value (Button.width space) = Some 200
    ∧ px_value (defaultButtonWidth k) = Some 40
    ∧ 200 ≠ 2 * 40.
Proof.
  vm_compute. eexists. do 4 (split; [reflexivity|]). discriminate.
Qed.

(** C4 as stated fails on the row of the space bar: the style list has the
    length of the label list, its entry gives no height, and the height of
    the button is the default of the panel. *)
Lemma addKeysRow_sparse_entry :
  let this := VirtualKeyboard.new control0 in
  let entry := KeyPropertySet.mk (Some "200px") None None None None None
                 None None in
  ∃ row b,
    children (addKeysRow [" "] (Some [entry]) this) = [Some row]
    ∧ StackPanel.children row = [Some b]
    ∧ length [entry] = length [" "]
    ∧ Button.width b = "200px"
    ∧ KeyPropertySet.height entry = None
    ∧ KeyPropertySet.height entry ≠ Some (Button.height b)
    ∧ Button.height b = defaultButtonHeight this.
Proof.
  vm_compute. eexists _, _. do 5 (split; [reflexivity|]).
  split; [discriminate|reflexivity].
Qed.

(** C8 as stated fails for a negative state: the shift key of the default
    layout takes the colour [shiftButtonColor] under [applyShiftState(-1)],
    although -1 is not greater than zero. *)
Lemma applyShiftState_negative_state :
  let this := CreateDefaultLayout control0 in
  ∃ b b',
    button_at 3 0 this = Some b
    ∧ label b = Some SHIFT
    ∧ button_at 3 0 (@applyShiftState ascii_case (-1) this) = Some b'
    ∧ ¬ (-1 > 0)
    ∧ Button.color b' = shiftButtonColor this
    ∧ Button.color b' ≠ defaultButtonColor this.
Proof.
  vm_compute. eexists _, _. do 3 (split; [reflexivity|]).
  split; [discriminate|]. split; [reflexivity|]. discriminate.
Qed.

(** ** Detaching the input *)

Lemma remove_add_fresh {C} (id : nat) (c : C) (o : Observable.t C) :
  Forall (λ id', (id' < id)%nat) (Observable.ids o) →
  Observable.remove (Some id) (Observable.add id c o) = o.
Proof.
  unfold Observable.add, Observable.ids.
  induction o as [|[id' c'] o IH]; intros Hlt; simpl.
  - by rewrite Nat.eqb_refl.
  - apply Forall_cons in Hlt as [Hid Ho]. simpl in Hid.
    assert (Hne : Nat.eqb id id' = false) by (apply Nat.eqb_neq; lia).
    rewrite Hne. f_equal. by apply IH.
Qed.

Lemma ids_below_weaken {C} (o : Observable.t C) (n m : nat) :
  (n ≤ m)%nat → Forall (λ id, (id < n)%nat) (Observable.ids o) →
  Forall (λ id, (id < m)%nat) (Observable.ids o).
Proof.
  intros Hnm Ho. eapply Forall_impl; [exact Ho|]. intros id Hid. simpl in *.
  lia.
Qed.

Lemma disconnect_detached w :
  _connectedInputText (keyboard (disconnect w)) = None.
Proof.
  unfold disconnect. by destruct (_connectedInputText (keyboard w)) eqn:Hc.
Qed.

Lemma disconnect_none w :
  _connectedInputText (keyboard w) = None → disconnect w = w.
Proof. intros Hc. unfold disconnect. by rewrite Hc. Qed.

(** Connecting and disconnecting at once restores every subscription. *)
Lemma disconnect_connect input w :
  observers_known w →
  onKeyPressObservable (keyboard (disconnect (connect input w)))
  = onKeyPressObservable (keyboard w)
  ∧ inputs (disconnect (connect input w)) = inputs w.
Proof.
  intros [Hk Hi]. unfold disconnect, connect. simpl. split.
  - apply remove_add_fresh. revert Hk. apply ids_below_weaken. lia.
  - rewrite alter_alter_eq. apply alter_id. intros [f b] Hl. simpl.
    destruct (Hi input _ Hl) as [Hf Hb]. simpl in Hf, Hb. f_equal.
    + by apply remove_add_fresh.
    + apply remove_add_fresh. revert Hb. apply ids_below_weaken. lia.
Qed.

(** What [disconnect] does to the subscriptions is decided by the wiring of
    the keyboard and by the inputs. *)
Lemma disconnect_wiring w1 w2 :
  wiring (keyboard w1) = wiring (keyboard w2) → inputs w1 = inputs w2 →
  wiring (keyboard (disconnect w1)) = wiring (keyboard (disconnect w2))
  ∧ inputs (disconnect w1) = inputs (disconnect w2).
Proof.
  unfold wiring, disconnect. intros Hw Hi.
  injection Hw as Ho Hc Hf Hb Hp. rewrite Hc.
  destruct (_connectedInputText (keyboard w2)) eqn:Hc2; simpl.
  - rewrite Ho, Hf, Hb, Hp, Hi. split; reflexivity.
  - rewrite Ho, Hc, Hc2, Hf, Hb, Hp, Hi. split; reflexivity.
Qed.

Lemma notifyVisibility_wiring observers k :
  wiring (notifyVisibility observers k) = wiring k.
Proof.
  unfold notifyVisibility. revert k.
  induction observers as [|[id [v]] observers IH]; intros k; simpl; [done|].
  by rewrite IH.
Qed.

Lemma ids_remove_below {C} (observer : option nat) (o : Observable.t C)
    (n : nat) :
  Forall (λ id, (id < n)%nat) (Observable.ids o) →
  Forall (λ id, (id < n)%nat) (Observable.ids (Observable.remove observer o)).
Proof.
  destruct observer as [id|]; [|by destruct o].
  unfold Observable.ids. induction o as [|[id' c] o IH]; intros Ho; [done|].
  apply Forall_cons in Ho as [Hid Ho]. simpl.
  destruct (Nat.eqb id id'); [done|]. apply Forall_cons. split; [done|].
  by apply IH.
Qed.

Lemma ids_add_below {C} (id : nat) (c : C) (o : Observable.t C) (n : nat) :
  (id < n)%nat →
  Forall (λ id, (id < n)%nat) (Observable.ids o) →
  Forall (λ id, (id < n)%nat) (Observable.ids (Observable.add id c o)).
Proof.
  intros Hid Ho. unfold Observable.add, Observable.ids. rewrite fmap_app.
  apply Forall_app. split; [done|]. by apply Forall_singleton.
Qed.

Lemma connect_observers_known input w :
  observers_known w → observers_known (connect input w).
Proof.
  intros [Hk Hi]. split; simpl.
  - apply ids_add_below; [lia|]. revert Hk. apply ids_below_weaken. lia.
  - apply map_Forall_lookup. intros l i Hl.
    apply lookup_alter_Some in Hl as [(-> & i0 & Hl & ->)|[Hne Hl]].
    + destruct (Hi _ _ Hl) as [Hf Hb]. simpl. split.
      * apply ids_add_below; [lia|]. revert Hf. apply ids_below_weaken. lia.
      * apply ids_add_below; [lia|]. revert Hb. apply ids_below_weaken. lia.
    + destruct (Hi _ _ Hl) as [Hf Hb]. split.
      * revert Hf. apply ids_below_weaken. lia.
      * revert Hb. apply ids_below_weaken. lia.
Qed.

Lemma disconnect_observers_known w :
  observers_known w → observers_known (disconnect w).
Proof.
  intros [Hk Hi]. unfold disconnect.
  destruct (_connectedInputText (keyboard w)) as [input|]; [|done].
  split; simpl.
  - by apply ids_remove_below.
  - apply map_Forall_lookup. intros l i Hl.
    apply lookup_alter_Some in Hl as [(-> & i0 & Hl & ->)|[Hne Hl]].
    + destruct (Hi _ _ Hl) as [Hf Hb]. simpl.
      split; by apply ids_remove_below.
    + exact (Hi _ _ Hl).
Qed.

Section Detach.
Context `{CaseMapping}.

Lemma onKeyPress_wiring key k : wiring (onKeyPress key k).1 = wiring k.
Proof.
  unfold onKeyPress. destruct (_connectedInputText k); [|done].
  repeat case_match; done.
Qed.

Lemma notifyObservers_wiring observers key k :
  wiring (notifyObservers observers key k).1 = wiring k.
Proof.
  revert k. induction observers as [|[id []] observers IH]; intros k; simpl;
    [done|].
  pose proof (onKeyPress_wiring key k) as Hk.
  destruct (onKeyPress key k) as [k1 c1]. specialize (IH k1).
  destruct (notifyObservers observers key k1). simpl in *. congruence.
Qed.

Lemma pointerUp_wiring callbacks k :
  wiring (pointerUp callbacks k).1 = wiring k.
Proof.
  revert k. induction callbacks as [|[key] callbacks IH]; intros k; simpl;
    [done|].
  pose proof (notifyObservers_wiring (onKeyPressObservable k) key k) as Hk.
  unfold notifyKeyPress.
  destruct (notifyObservers (onKeyPressObservable k) key k) as [k1 c1].
  specialize (IH k1). destruct (pointerUp callbacks k1). simpl in *.
  congruence.
Qed.

Lemma step_user_event e w :
  user_event e →
  wiring (keyboard (step e w).1) = wiring (keyboard w)
  ∧ inputs (step e w).1 = inputs w
  ∧ fresh (step e w).1 = fresh w.
Proof.
  destruct e as [key|row column|input|input|input|]; simpl; try done;
    intros _.
  - split; [|done]. apply notifyObservers_wiring.
  - destruct (button_at row column (keyboard w)); [|done]. simpl.
    split; [|done]. apply pointerUp_wiring.
  - destruct (inputs w !! input); [|done]. simpl.
    split; [|done]. apply notifyVisibility_wiring.
  - destruct (inputs w !! input); [|done]. simpl.
    split; [|done]. apply notifyVisibility_wiring.
Qed.

Lemma run_user_events events w :
  Forall user_event events →
  wiring (keyboard (run events w).1) = wiring (keyboard w)
  ∧ inputs (run events w).1 = inputs w.
Proof.
  revert w. induction events as [|e events IH]; intros w Hu; simpl; [done|].
  apply Forall_cons in Hu as [He Hu].
  destruct (step_user_event e w He) as (Hw & Hi & _).
  destruct (step e w) as [w1 c1]. destruct (IH w1 Hu) as [Hw1 Hi1].
  destruct (run events w1). simpl in *. split; congruence.
Qed.

(** Observers stay known whatever happens to the scene. *)
Lemma step_observers_known e w :
  observers_known w → observers_known (step e w).1.
Proof.
  intros Hk.
  assert (Huser : user_event e → observers_known (step e w).1).
  { intros He. destruct (step_user_event e w He) as (Hw & Hi & Hf).
    unfold wiring in Hw. injection Hw as Ho _ _ _ _.
    unfold observers_known. by rewrite Ho, Hi, Hf. }
  destruct e; try (by apply Huser).
  - by apply connect_observers_known.
  - by apply disconnect_observers_known.
Qed.

Lemma run_observers_known events w :
  observers_known w → observers_known (run events w).1.
Proof.
  revert w. induction events as [|e events IH]; intros w Hk; simpl; [done|].
  pose proof (step_observers_known e w Hk) as Hw.
  destruct (step e w) as [w1 c1]. specialize (IH w1 Hw).
  by destruct (run events w1).
Qed.

(** C7: [disconnect] is safe to repeat.  With no input attached it returns
    the scene as it is; in every case no input is attached afterwards and a
    second [disconnect] changes nothing.  After [connect], and whatever keys,
    buttons, focus and blur events follow, [disconnect] leaves the observable
    of the keyboard and the observables of every input as they were before
    [connect]: the three observers of [connect] are unsubscribed.  The
    embedding of [disconnect] is a total function: the source has no path
    that throws. *)
Theorem disconnect_safe (w : World) (input : loc) (events : list Event) :
  observers_known w →
  Forall user_event events →
  (_connectedInputText (keyboard w) = None → disconnect w = w)
  ∧ _connectedInputText (keyboard (disconnect w)) = None
  ∧ disconnect (disconnect w) = disconnect w
  ∧ let w' := disconnect (run events (connect input w)).1 in
    onKeyPressObservable (keyboard w') = onKeyPressObservable (keyboard w)
    ∧ inputs w' = inputs w
    ∧ _connectedInputText (keyboard w') = None
    ∧ disconnect w' = w'.
Proof.
  intros Hk Hu. split; [apply disconnect_none|].
  split; [apply disconnect_detached|].
  split; [apply disconnect_none, disconnect_detached|]. simpl.
  destruct (run_user_events events (connect input w) Hu) as [Hw Hi].
  destruct (disconnect_wiring _ _ Hw Hi) as [Hw' Hi'].
  destruct (disconnect_connect input w Hk) as [Ho Hin].
  split; [|split; [|split]].
  - unfold wiring in Hw'. injection Hw' as -> _ _ _ _. exact Ho.
  - by rewrite Hi'.
  - apply disconnect_detached.
  - apply disconnect_none, disconnect_detached.
Qed.

End Detach.

(** ** The statements at work on the default layout *)

Lemma world0_observers_known : observers_known world0.
Proof.
  split; [by constructor|].
  apply map_Forall_singleton. split; by constructor.
Defined.

Lemma keyboard0_labels_stable : Forall (@case_stable ascii_case) (labels keyboard0).
Proof. apply (bool_decide_unpack _). by vm_compute. Defined.

Lemma shift_key_cycles_witness :
  _connectedInputText keyboard0 = Some 0%nat
  ∧ shiftState keyboard0 = 0
  ∧ shiftState
      (@onKeyPress ascii_case SHIFT
         (@pressKeys ascii_case ["a"; SHIFT] keyboard0).1).1 = 2
  ∧ shiftState (@pressKeys ascii_case [SHIFT; SHIFT; SHIFT] keyboard0).1 = 0.
Proof.
  split; [reflexivity|]. split; [reflexivity|].
  destruct (@shift_key_cycles ascii_case keyboard0 0%nat ["a"; SHIFT]
              eq_refl eq_refl) as (_ & E & _ & E0).
  split; [exact E|exact E0].
Defined.

Lemma literal_key_forwarded_witness :
  let k := (@onKeyPress ascii_case SHIFT keyboard0).1 in
  _connectedInputText k = Some 0%nat
  ∧ "a" ≠ SHIFT ∧ "a" ≠ BACKSPACE ∧ "a" ≠ ENTER
  ∧ 0 <= shiftState k
  ∧ shiftState k = 1
  ∧ (@onKeyPress ascii_case "a" k).2
    = [ProcessKey 0%nat (-1) (Some "A"); ApplyShiftState 0]
  ∧ shiftState (@onKeyPress ascii_case "a" k).1 = 0.
Proof.
  intros k.
  assert (Hs : "a" ≠ SHIFT) by discriminate.
  assert (Hb : "a" ≠ BACKSPACE) by discriminate.
  assert (He : "a" ≠ ENTER) by discriminate.
  assert (Hpos : 0 <= shiftState k) by (vm_compute; discriminate).
  do 6 (split; [first [reflexivity | assumption]|]).
  destruct (@literal_key_forwarded ascii_case k 0%nat "a" eq_refl Hs Hb He
              Hpos) as (H1 & _ & _).
  destruct (H1 eq_refl) as [E1 E2]. split; [|exact E2].
  rewrite E1. reflexivity.
Defined.

Lemma control_keys_forward_commands_witness :
  _connectedInputText keyboard0 = Some 0%nat
  ∧ @onKeyPress ascii_case BACKSPACE keyboard0
    = (keyboard0, [ProcessKey 0%nat 8 None])
  ∧ @onKeyPress ascii_case ENTER keyboard0
    = (keyboard0, [ProcessKey 0%nat 13 None]).
Proof.
  split; [reflexivity|].
  destruct (@control_keys_forward_commands ascii_case keyboard0 0%nat eq_refl)
    as (Eb & Ee & _).
  split; [exact Eb|exact Ee].
Defined.

Lemma router_idle_when_detached_witness :
  let k := keyboard (disconnect (connect 0%nat world0)) in
  _connectedInputText k = None
  ∧ @onKeyPress ascii_case SHIFT k = (k, []).
Proof.
  intros k. split; [reflexivity|].
  exact (proj1 (@router_idle_when_detached ascii_case k SHIFT eq_refl)).
Defined.

Lemma shiftState_in_range_witness :
  let events := [Connect 0%nat; PointerUp 3 0; KeyPress SHIFT; PointerUp 1 0;
                 Blur 0%nat; KeyPress SHIFT; KeyPress SHIFT] in
  shiftState (keyboard world0) = 0
  ∧ shift_state_ok
      (shiftState (keyboard (@run ascii_case events world0).1)).
Proof.
  intros events. split; [reflexivity|].
  exact (proj1 (@shiftState_in_range ascii_case world0 events eq_refl)).
Defined.

Lemma applyShiftState_idempotent_witness :
  Forall (@case_stable ascii_case) (labels keyboard0)
  ∧ @applyShiftState ascii_case 1 (@applyShiftState ascii_case 1 keyboard0)
    = @applyShiftState ascii_case 1 keyboard0.
Proof.
  split; [exact keyboard0_labels_stable|].
  exact (@applyShiftState_idempotent ascii_case keyboard0 1
           keyboard0_labels_stable).
Defined.

Lemma disconnect_safe_witness :
  let events := [KeyPress SHIFT; Focus 0%nat; PointerUp 1 0; Blur 0%nat] in
  let w' := disconnect (@run ascii_case events (connect 0%nat world0)).1 in
  observers_known world0
  ∧ Forall user_event events
  ∧ inputs w' = inputs world0
  ∧ onKeyPressObservable (keyboard w') = []
  ∧ disconnect w' = w'.
Proof.
  intros events w'.
  assert (Hu : Forall user_event events) by (repeat constructor).
  split; [exact world0_observers_known|]. split; [exact Hu|].
  destruct (@disconnect_safe ascii_case world0 0%nat events
              world0_observers_known Hu) as (_ & _ & _ & Ho & Hi & _ & Hd).
  split; [exact Hi|]. split; [exact Ho|exact Hd].
Defined.

Lemma applyShiftState_effect_witness :
  let this := CreateDefaultLayout control0 in
  ∃ b', button_at 3 0 (@applyShiftState ascii_case 2 this) = Some b'
    ∧ label b' = Some SHIFT
    ∧ Button.color b' = shiftButtonColor this
    ∧ Button.thickness b' = selectedShiftThickness this.
Proof.
  intros this.
  destruct (@applyShiftState_effect ascii_case this 2) as [_ Hb].
  edestruct (Hb 3%nat 0%nat) as (row' & b' & Hrow & Hb' & Hl & Hs & _);
    [reflexivity|reflexivity|reflexivity|].
  exists b'. destruct (Hs eq_refl) as (Hc & _ & Ht).
  split; [|split; [exact Hl|split; [exact Hc|exact Ht]]].
  unfold button_at. rewrite Hrow. simpl. by rewrite Hb'.
Defined.

Lemma addKeysRow_styles_witness :
  let this := VirtualKeyboard.new control0 in
  let entry := KeyPropertySet.mk (Some "200px") (Some "") None None None None
                 None None in
  ∃ row b,
    children (addKeysRow [" "] (Some [entry]) this) = [Some row]
    ∧ StackPanel.children row = [Some b]
    ∧ Button.width b = "200px"
    ∧ Button.height b = "40px"
    ∧ Button.color b = "#DDD".
Proof.
  intros this entry.
  destruct (addKeysRow_styles this [" "] (Some [entry]))
    as (row & Hrow & Hlen & Hkeys).
  destruct (Hkeys 0%nat " " eq_refl) as (b & Hb & _ & Hf).
  exists row, b. split; [exact Hrow|].
  split.
  { destruct (StackPanel.children row) as [|b0 [|b1 rest]];
      [discriminate Hlen| |discriminate Hlen].
    simpl in Hb. injection Hb as ->. reflexivity. }
  split; [|split].
  - destruct (Hf KeyPropertySet.width Button.width defaultButtonWidth)
      as (Hset & _); [by repeat constructor|].
    apply (Hset [entry] entry "200px"); (reflexivity || discriminate).
  - destruct (Hf KeyPropertySet.height Button.height defaultButtonHeight)
      as (_ & Hunset & _); [by repeat constructor|].
    apply (Hunset [entry] entry); try reflexivity. by right.
  - destruct (Hf KeyPropertySet.color Button.color defaultButtonColor)
      as (_ & Hunset & _); [by repeat constructor|].
    apply (Hunset [entry] entry); try reflexivity. by left.
Defined.

(** * Further properties of the source *)

(** ** Attaching, detaching and attaching again *)

Lemma notifyVisibility_snoc observers id v k :
  notifyVisibility (observers ++ [(id, SetVisible v)]) k
  = set_isVisible v (notifyVisibility observers k).
Proof. unfold notifyVisibility. by rewrite foldl_snoc. Qed.

Lemma world_eta w : mkWorld (keyboard w) (inputs w) (fresh w) = w.
Proof. by destruct w. Qed.

Section Attach.
Context `{CaseMapping}.

(** With no input attached a key-press event does nothing, however many
    routers are subscribed. *)
Lemma notifyObservers_detached observers key k :
  _connectedInputText k = None → notifyObservers observers key k = (k, []).
Proof.
  intros Hc. induction observers as [|[id []] observers IH]; simpl; [done|].
  unfold onKeyPress at 1. rewrite Hc. by rewrite IH.
Qed.

(** Two subscribed routers handle every key twice. *)
Lemma notifyObservers_two id1 id2 key k :
  (notifyObservers [(id1, RouteKey); (id2, RouteKey)] key k).1
  = (onKeyPress key (onKeyPress key k).1).1
  ∧ (notifyObservers [(id1, RouteKey); (id2, RouteKey)] key k).2
    = (onKeyPress key k).2 ++ (onKeyPress key (onKeyPress key k).1).2.
Proof.
  simpl. destruct (onKeyPress key k) as [k1 c1]. simpl.
  destruct (onKeyPress key k1) as [k2 c2]. simpl. by rewrite app_nil_r.
Qed.

(** X1: [connect] hides the keyboard and attaches the input without
    touching the rows or the shift state; from then on a focus of the input
    shows the keyboard and a blur hides it, and neither makes a call. *)
Theorem connect_shows_on_focus (w : World) (input : loc) (i : InputText.t) :
  inputs w !! input = Some i →
  let w1 := connect input w in
  connectedInputText (keyboard w1) = Some input
  ∧ isVisible (keyboard w1) = false
  ∧ children (keyboard w1) = children (keyboard w)
  ∧ shiftState (keyboard w1) = shiftState (keyboard w)
  ∧ isVisible (keyboard (step (Focus input) w1).1) = true
  ∧ isVisible (keyboard (step (Blur input) w1).1) = false
  ∧ (step (Focus input) w1).2 = []
  ∧ (step (Blur input) w1).2 = [].
Proof.
  intros Hi w1.
  assert (Hl : inputs w1 !! input
               = Some (InputText.mk
                         (Observable.add (fresh w) (SetVisible true)
                            (InputText.onFocusObservable i))
                         (Observable.add (S (fresh w)) (SetVisible false)
                            (InputText.onBlurObservable i)))).
  { unfold w1. simpl. by rewrite lookup_alter_eq, Hi. }
  do 4 (split; [reflexivity|]).
  cbn [step]. rewrite Hl. cbn [InputText.onFocusObservable
    InputText.onBlurObservable]. unfold Observable.add, with_keyboard.
  cbn [fst snd keyboard]. rewrite !notifyVisibility_snoc. done.
Qed.

(** X2: [disconnect] does not show the keyboard again: after [connect] and
    [disconnect] the keyboard is hidden, whatever it was before, and when
    nobody else listens to the input, its focus and blur leave the scene as
    it is. *)
Theorem disconnect_leaves_hidden (w : World) (input : loc) :
  observers_known w →
  inputs w !! input = Some (InputText.mk [] []) →
  let w2 := disconnect (connect input w) in
  isVisible (keyboard w2) = false
  ∧ step (Focus input) w2 = (w2, [])
  ∧ step (Blur input) w2 = (w2, []).
Proof.
  intros Hk Hi w2. destruct (disconnect_connect input w Hk) as [_ Hin].
  fold w2 in Hin. split; [reflexivity|].
  cbn [step]. rewrite Hin, Hi. unfold with_keyboard, notifyVisibility.
  cbn [InputText.onFocusObservable InputText.onBlurObservable foldl fst snd].
  by rewrite world_eta.
Qed.

(** X3: [connect] does not detach the input that is attached.  After two
    calls of [connect] on a keyboard that no router listened to, two routers
    are subscribed and the second input is the attached one: every key-press
    event is handled twice, so that from state 0 one press of the shift glyph
    gives state 2 and a literal key is forwarded twice. *)
Theorem connect_twice_routes_twice (w : World) (a b : loc) (key : string) :
  onKeyPressObservable (keyboard w) = [] →
  let k := keyboard (connect b (connect a w)) in
  connectedInputText k = Some b
  ∧ length (onKeyPressObservable k) = 2%nat
  ∧ (notifyKeyPress key k).1 = (onKeyPress key (onKeyPress key k).1).1
  ∧ (notifyKeyPress key k).2
    = (onKeyPress key k).2 ++ (onKeyPress key (onKeyPress key k).1).2
  ∧ (shiftState (keyboard w) = 0 →
       shiftState (notifyKeyPress SHIFT k).1 = 2
       ∧ (literal key →
            (notifyKeyPress key k).2
            = [ProcessKey b (-1) (Some key); ProcessKey b (-1) (Some key)])).
Proof.
  intros Ho k.
  assert (Hobs : onKeyPressObservable k
                 = [(S (S (fresh w)), RouteKey);
                    (S (S (S (S (S (fresh w))))), RouteKey)]).
  { unfold k. simpl. by rewrite Ho. }
  assert (Hc : _connectedInputText k = Some b) by reflexivity.
  split; [done|]. split; [by rewrite Hobs|].
  assert (Htwo : ∀ key', (notifyKeyPress key' k).1
                         = (onKeyPress key' (onKeyPress key' k).1).1
                 ∧ (notifyKeyPress key' k).2
                   = (onKeyPress key' k).2
                     ++ (onKeyPress key' (onKeyPress key' k).1).2).
  { intros key'. unfold notifyKeyPress. rewrite Hobs.
    apply notifyObservers_two. }
  split; [apply Htwo|]. split; [apply Htwo|].
  intros Hs. assert (Hsk : shiftState k = 0) by exact Hs. split.
  - destruct (Htwo SHIFT) as [-> _].
    pose proof (onKeyPress_connected SHIFT k) as Hc1. rewrite Hc in Hc1.
    rewrite (onKeyPress_spec_transition SHIFT _ b Hc1).
    + rewrite (onKeyPress_spec_transition SHIFT k b Hc); [|by left].
      by rewrite Hsk.
    + apply onKeyPress_shift_state_ok. by left.
  - intros (Hns & Hnb & Hne). destruct (Htwo key) as [_ ->].
    rewrite (onKeyPress_literal k b key Hc Hns Hnb Hne).
    rewrite Hsk. cbn [Z.eqb truthy negb fst snd].
    rewrite (onKeyPress_literal k b key Hc Hns Hnb Hne).
    by rewrite Hsk.
Qed.

(** X4: after two calls of [connect], [disconnect] takes away the observers
    of the second call only.  No input is attached and the router that is
    left does nothing on a key press, but the first input still shows the
    keyboard when it gets the focus. *)
Theorem disconnect_after_connect_twice (w : World) (a b : loc)
    (i : InputText.t) (key : string) :
  onKeyPressObservable (keyboard w) = [] →
  a ≠ b →
  inputs w !! a = Some i →
  let w3 := disconnect (connect b (connect a w)) in
  connectedInputText (keyboard w3) = None
  ∧ onKeyPressObservable (keyboard w3) = [(S (S (fresh w)), RouteKey)]
  ∧ step (KeyPress key) w3 = (w3, [])
  ∧ isVisible (keyboard w3) = false
  ∧ isVisible (keyboard (step (Focus a) w3).1) = true.
Proof.
  intros Ho Hab Hi w3.
  assert (Hobs : onKeyPressObservable (keyboard w3)
                 = [(S (S (fresh w)), RouteKey)]).
  { unfold w3. cbn [disconnect connect keyboard _connectedInputText
      set_connection set_isVisible onKeyPressObservable _onKeyPressObserver
      fresh]. rewrite Ho.
    apply (remove_add_fresh (S (S (S (S (S (fresh w))))))
             RouteKey [(S (S (fresh w)), RouteKey)]).
    apply Forall_singleton. simpl. lia. }
  split; [reflexivity|]. split; [exact Hobs|]. split; [|split].
  - cbn [step]. unfold notifyKeyPress.
    rewrite (notifyObservers_detached _ key (keyboard w3) eq_refl).
    unfold with_keyboard. cbn [fst snd]. by rewrite world_eta.
  - reflexivity.
  - assert (Hl : inputs w3 !! a
                 = Some (InputText.mk
                           (Observable.add (fresh w) (SetVisible true)
                              (InputText.onFocusObservable i))
                           (Observable.add (S (fresh w)) (SetVisible false)
                              (InputText.onBlurObservable i)))).
    { unfold w3. cbn [disconnect connect keyboard _connectedInputText
        set_connection set_isVisible inputs].
      rewrite lookup_alter_ne by done. rewrite lookup_alter_ne by done.
      by rewrite lookup_alter_eq, Hi. }
    cbn [step]. rewrite Hl. cbn [InputText.onFocusObservable].
    unfold Observable.add, with_keyboard. cbn [fst snd keyboard].
    by rewrite notifyVisibility_snoc.
Qed.

(** X5: with [disconnect] in between, attaching another input leaves one
    router subscribed, so that a key-press event is one run of the router,
    and only the new input carries observers of the keyboard. *)
Theorem reconnect_after_disconnect (w : World) (a b : loc) (key : string) :
  observers_known w →
  onKeyPressObservable (keyboard w) = [] →
  let w3 := connect b (disconnect (connect a w)) in
  connectedInputText (keyboard w3) = Some b
  ∧ length (onKeyPressObservable (keyboard w3)) = 1%nat
  ∧ notifyKeyPress key (keyboard w3) = onKeyPress key (keyboard w3)
  ∧ ∀ c, c ≠ b → inputs w3 !! c = inputs w !! c.
Proof.
  intros Hk Ho w3. destruct (disconnect_connect a w Hk) as [Hobs Hin].
  assert (Ho3 : onKeyPressObservable (keyboard w3)
                = [(S (S (S (S (S (fresh w))))), RouteKey)]).
  { unfold w3.
    change (Observable.add (S (S (fresh (disconnect (connect a w))))) RouteKey
              (onKeyPressObservable (keyboard (disconnect (connect a w))))
            = [(S (S (S (S (S (fresh w))))), RouteKey)]).
    by rewrite Hobs, Ho. }
  split; [reflexivity|]. split; [by rewrite Ho3|]. split.
  - by apply notifyKeyPress_single with (S (S (S (S (S (fresh w)))))).
  - intros c Hc. unfold w3. cbn [connect inputs].
    rewrite lookup_alter_ne by done. by rewrite Hin.
Qed.

End Attach.

(** ** What applying a shift state leaves alone *)

Lemma button_frame_fields b :
  Button.name (button_frame b) = Button.name b
  ∧ Button.onPointerUpObservable (button_frame b)
    = Button.onPointerUpObservable b.
Proof. done. Qed.

Lemma buttons_snoc (k : VirtualKeyboard.t) (row : StackPanel.t) :
  buttons (set_children (children k ++ [Some row]) k)
  = buttons k ++ omap id (StackPanel.children row).
Proof.
  unfold buttons. simpl. rewrite omap_app, bind_app. csimpl.
  by rewrite app_nil_r.
Qed.

Lemma button_at_elem_of r c k b :
  button_at r c k = Some b → b ∈ buttons k.
Proof.
  unfold button_at. intros Hb.
  destruct (children k !! r) as [[row|]|] eqn:Hr; simpl in Hb; try done.
  destruct (StackPanel.children row !! c) as [[b'|]|] eqn:Hc; simpl in Hb;
    try done.
  injection Hb as ->. apply elem_of_buttons with row.
  - apply list_elem_of_lookup. by exists r.
  - apply list_elem_of_lookup. by exists c.
Qed.

(** Keyboards with the same frames have the same frames at every place. *)
Lemma button_at_frame r c k k' :
  layout_frame k' = layout_frame k →
  button_frame <$> button_at r c k' = button_frame <$> button_at r c k.
Proof.
  unfold layout_frame, button_at. intros Hf.
  apply (f_equal (λ l, l !! r)) in Hf. rewrite !list_lookup_fmap in Hf.
  destruct (children k' !! r) as [[row'|]|], (children k !! r) as [[row|]|];
    simpl in *; try done.
  injection Hf as _ _ Hf.
  apply (f_equal (λ l, l !! c)) in Hf. rewrite !list_lookup_fmap in Hf.
  destruct (StackPanel.children row' !! c) as [[b'|]|],
    (StackPanel.children row !! c) as [[b|]|]; simpl in *; try done.
  congruence.
Qed.

Lemma key_counts_frame k :
  key_counts k
  = (λ row, length (StackPanel.children row)) <$> omap id (layout_frame k).
Proof.
  unfold key_counts, layout_frame.
  induction (children k) as [|[row|] rows IH]; csimpl; [done| |done].
  rewrite IH. f_equal. by rewrite length_fmap.
Qed.

Section Frame.
Context `{CaseMapping}.

Lemma applyShiftState_button_frame this s (ob : option Button.t) :
  button_frame <$> applyShiftState_button this s ob = button_frame <$> ob.
Proof.
  destruct ob as [b|]; [|done].
  destruct b as [n c wd ht co bg pl pr pt pb th fi sc sb sx sy po].
  destruct c as [|tb others]; [done|].
  unfold applyShiftState_button. simpl.
  by destruct (String.eqb (TextBlock.text tb) SHIFT).
Qed.

Lemma applyShiftState_layout_frame s k :
  layout_frame (applyShiftState s k) = layout_frame k.
Proof.
  unfold layout_frame, applyShiftState. simpl.
  rewrite <- list_fmap_compose. apply list_fmap_ext. intros _ [row|] _; [|done].
  simpl. unfold row_frame, StackPanel.set_children. simpl. do 2 f_equal.
  rewrite <- list_fmap_compose. apply list_fmap_ext. intros _ ob _.
  apply applyShiftState_button_frame.
Qed.




Lemma onKeyPress_layout_frame key k :
  layout_frame (onKeyPress key k).1 = layout_frame k.
Proof.
  unfold onKeyPress. destruct (_connectedInputText k); [|done].
  repeat case_match; simpl; try done;
    by rewrite applyShiftState_layout_frame.
Qed.

Lemma notifyObservers_layout_frame observers key k :
  layout_frame (notifyObservers observers key k).1 = layout_frame k.
Proof.
  revert k. induction observers as [|[id []] observers IH]; intros k; simpl;
    [done|].
  pose proof (onKeyPress_layout_frame key k) as Hk.
  destruct (onKeyPress key k) as [k1 c1]. specialize (IH k1).
  destruct (notifyObservers observers key k1). simpl in *. congruence.
Qed.

Lemma pointerUp_layout_frame callbacks k :
  layout_frame (pointerUp callbacks k).1 = layout_frame k.
Proof.
  revert k. induction callbacks as [|[key] callbacks IH]; intros k; simpl;
    [done|].
  pose proof (notifyObservers_layout_frame (onKeyPressObservable k) key k)
    as Hk.
  unfold notifyKeyPress.
  destruct (notifyObservers (onKeyPressObservable k) key k) as [k1 c1].
  specialize (IH k1). destruct (pointerUp callbacks k1). simpl in *.
  congruence.
Qed.

Lemma notifyVisibility_layout_frame observers k :
  layout_frame (notifyVisibility observers k) = layout_frame k.
Proof.
  unfold notifyVisibility. revert k.
  induction observers as [|[id [v]] observers IH]; intros k; simpl; [done|].
  by rewrite IH.
Qed.

Lemma step_layout_frame e w :
  layout_frame (keyboard (step e w).1) = layout_frame (keyboard w).
Proof.
  destruct e as [key|row column|input|input|input|]; simpl.
  - apply notifyObservers_layout_frame.
  - destruct (button_at row column (keyboard w)); [|done].
    apply pointerUp_layout_frame.
  - destruct (inputs w !! input); [|done]. apply notifyVisibility_layout_frame.
  - destruct (inputs w !! input); [|done]. apply notifyVisibility_layout_frame.
  - done.
  - unfold disconnect. by destruct (_connectedInputText (keyboard w)).
Qed.

Lemma run_layout_frame events w :
  layout_frame (keyboard (run events w).1) = layout_frame (keyboard w).
Proof.
  revert w. induction events as [|e events IH]; intros w; simpl; [done|].
  pose proof (step_layout_frame e w) as Hw.
  destruct (step e w) as [w1 c1]. specialize (IH w1).
  destruct (run events w1). simpl in *. congruence.
Qed.

(** X6: [applyShiftState] writes the first child of a button, its colour
    and its thickness, and nothing else: the number and order of the rows
    and of their keys, every other field of every button (name, size,
    paddings, background, shadow, pointer-up subscription, further
    children) and every field of the keyboard but its children stay as they
    are; [shiftState] in particular is not set. *)
Theorem applyShiftState_keeps_layout (k : VirtualKeyboard.t) (s : Z) :
  layout_frame (applyShiftState s k) = layout_frame k
  ∧ key_counts (applyShiftState s k) = key_counts k
  ∧ length (children (applyShiftState s k)) = length (children k)
  ∧ set_children (children k) (applyShiftState s k) = k
  ∧ shiftState (applyShiftState s k) = shiftState k.
Proof.
  split; [apply applyShiftState_layout_frame|].
  split; [by rewrite !key_counts_frame, applyShiftState_layout_frame|].
  split; [unfold applyShiftState; simpl; by rewrite length_fmap|].
  split; [by destruct k|done].
Qed.

(** X7: whatever happens to the scene, the layout stays: no event adds,
    removes or reorders rows or keys, or changes anything of a button but
    its label, colour and thickness. *)
Theorem run_keeps_layout (w : World) (events : list Event) :
  let k' := keyboard (run events w).1 in
  layout_frame k' = layout_frame (keyboard w)
  ∧ key_counts k' = key_counts (keyboard w)
  ∧ ∀ r c, button_frame <$> button_at r c k'
           = button_frame <$> button_at r c (keyboard w).
Proof.
  intros k'. pose proof (run_layout_frame events w) as Hf. fold k' in Hf.
  split; [done|]. split; [by rewrite !key_counts_frame, Hf|].
  intros r c. by apply button_at_frame.
Qed.


(** X9: a direct call of [applyShiftState] changes how the keys look, not
    what the router does: the calls and the next shift state of the router
    are those it would have given without it.  On a connected keyboard in
    state 0, after [applyShiftState(s)] for any [s], a literal key is still
    forwarded as it is. *)
Theorem applyShiftState_leaves_router (k : VirtualKeyboard.t) (s : Z)
    (key : string) (input : loc) :
  _connectedInputText k = Some input →
  (onKeyPress key (applyShiftState s k)).2 = (onKeyPress key k).2
  ∧ shiftState (onKeyPress key (applyShiftState s k)).1
    = shiftState (onKeyPress key k).1
  ∧ (shiftState k = 0 → literal key →
       onKeyPress key (applyShiftState s k)
       = (applyShiftState s k, [ProcessKey input (-1) (Some key)])).
Proof.
  intros Hc.
  assert (Hc' : _connectedInputText (applyShiftState s k) = Some input)
    by exact Hc.
  split; [|split].
  - unfold onKeyPress. rewrite Hc, Hc'. simpl. repeat case_match; done.
  - unfold onKeyPress. rewrite Hc, Hc'. simpl. repeat case_match; done.
  - intros Hs (Hns & Hnb & Hne).
    rewrite (onKeyPress_literal _ input key Hc' Hns Hnb Hne).
    by rewrite applyShiftState_shiftState, Hs.
Qed.

End Frame.

(** ** Keys and the events they raise *)

Lemma createKey_fresh_key this key propertySet :
  fresh_key this key (_createKey this key propertySet).
Proof. by repeat split. Qed.

Lemma addKeysRow_new_row this keys propertySets :
  addKeysRow keys propertySets this
  = set_children
      (children this
       ++ [Some (addKeys this keys propertySets 0%nat keys
                   (StackPanel.mk false true []))]) this.
Proof. reflexivity. Qed.

Lemma notifyVisibility_children observers k :
  children (notifyVisibility observers k) = children k.
Proof.
  unfold notifyVisibility. revert k.
  induction observers as [|[id [v]] observers IH]; intros k; simpl; [done|].
  by rewrite IH.
Qed.

(** X10: [addKeysRow] changes nothing of the keyboard but its rows, to which
    it adds one horizontal, focus-invisible row (an empty one for an empty
    list of keys).  Whatever the property sets, the button of a key is named
    after the key and labelled with it as given, has thickness 0, is
    focus-invisible, has the shadow of the keyboard and one pointer-up
    subscription, which emits the key. *)
Theorem addKeysRow_builds_keys (this : VirtualKeyboard.t)
    (keys : list string) (propertySets : option (list KeyPropertySet.t)) :
  ∃ row,
    addKeysRow keys propertySets this
    = set_children (children this ++ [Some row]) this
    ∧ StackPanel.isVertical row = false
    ∧ StackPanel.isFocusInvisible row = true
    ∧ (keys = [] → StackPanel.children row = [])
    ∧ (∀ (i : nat) key, keys !! i = Some key →
         ∃ b, StackPanel.children row !! i = Some (Some b)
           ∧ fresh_key this key b)
    ∧ buttons (addKeysRow keys propertySets this)
      = buttons this ++ omap id (StackPanel.children row)
    ∧ (Forall emits_own_key (buttons this) →
       Forall emits_own_key (buttons (addKeysRow keys propertySets this))).
Proof.
  exists (addKeys this keys propertySets 0%nat keys
            (StackPanel.mk false true [])).
  pose proof (addKeys_flags this keys propertySets keys 0%nat
                (StackPanel.mk false true [])) as [Hv Hf].
  pose proof (addKeys_children this keys propertySets keys 0%nat
                (StackPanel.mk false true [])) as Hc.
  simpl in Hv, Hf, Hc.
  split; [reflexivity|]. split; [done|]. split; [done|].
  split; [by intros ->|]. split.
  { intros i key Hkey. rewrite Hc, list_lookup_imap, Hkey. simpl.
    eexists. split; [reflexivity|]. apply createKey_fresh_key. }
  rewrite addKeysRow_new_row, buttons_snoc. split; [done|].
  intros Hold. apply Forall_app. split; [done|].
  apply Forall_forall. intros b Hb.
  apply list_elem_of_omap in Hb as (ob & Hob & Eob). simpl in Eob. subst ob.
  rewrite Hc in Hob. apply elem_of_lookup_imap in Hob as (i & key & Hb & _).
  injection Hb as ->. apply createKey_fresh_key.
Qed.

Section KeyEvents.
Context `{CaseMapping}.

Lemma pointerUp_detached callbacks k :
  _connectedInputText k = None → pointerUp callbacks k = (k, []).
Proof.
  intros Hc. induction callbacks as [|[key] callbacks IH]; simpl; [done|].
  unfold notifyKeyPress. rewrite (notifyObservers_detached _ key k Hc).
  by rewrite IH.
Qed.

Lemma pointerUp_own_key key k :
  pointerUp [NotifyKeyPress key] k = notifyKeyPress key k.
Proof.
  simpl. destruct (notifyKeyPress key k) as [k1 c1]. by rewrite app_nil_r.
Qed.

(** X11: releasing a key button is the key-press event of the key the
    button was made for, whatever its label shows by now: on a keyboard
    whose buttons have the subscription [_createKey] gives them, after any
    events, a pointer-up on a button is handled as the key press of its
    name, which is the name the button at that place had from the start;
    where there is no button, nothing happens. *)
Theorem pointerUp_is_key_press (w : World) (events : list Event)
    (r c : nat) :
  Forall emits_own_key (buttons (keyboard w)) →
  let w' := (run events w).1 in
  match button_at r c (keyboard w') with
  | Some b =>
      step (PointerUp r c) w' = step (KeyPress (Button.name b)) w'
      ∧ ∃ b0, button_at r c (keyboard w) = Some b0
          ∧ Button.name b0 = Button.name b
  | None =>
      step (PointerUp r c) w' = (w', [])
      ∧ button_at r c (keyboard w) = None
  end.
Proof.
  intros Hemit w'.
  pose proof (button_at_frame r c (keyboard w) (keyboard w')
                (run_layout_frame events w)) as Hf.
  cbn [step].
  destruct (button_at r c (keyboard w')) as [b|] eqn:Hb;
    destruct (button_at r c (keyboard w)) as [b0|] eqn:Hb0;
    try discriminate Hf; [|done].
  assert (Hff : button_frame b = button_frame b0).
  { change (Some (button_frame b) = Some (button_frame b0)) in Hf.
    congruence. }
  destruct (button_frame_fields b) as [Hn1 Hp1].
  destruct (button_frame_fields b0) as [Hn0 Hp0].
  assert (Hn : Button.name b0 = Button.name b) by congruence.
  assert (Hp : Button.onPointerUpObservable b
               = Button.onPointerUpObservable b0) by congruence.
  split; [|by exists b0].
  rewrite Forall_forall in Hemit.
  rewrite Hp, (Hemit b0 (button_at_elem_of r c _ _ Hb0)), Hn.
  by rewrite pointerUp_own_key.
Qed.

Lemma step_detached e w :
  user_event e →
  _connectedInputText (keyboard w) = None →
  (step e w).2 = []
  ∧ children (keyboard (step e w).1) = children (keyboard w)
  ∧ shiftState (keyboard (step e w).1) = shiftState (keyboard w)
  ∧ _connectedInputText (keyboard (step e w).1) = None.
Proof.
  intros He Hc. destruct (step_user_event e w He) as (Hw & _ & _).
  unfold wiring in Hw. injection Hw as _ Hc' _ _ _. rewrite Hc'.
  destruct e as [key|row column|input|input|input|]; simpl in *; try done.
  - unfold notifyKeyPress. by rewrite (notifyObservers_detached _ key _ Hc).
  - destruct (button_at row column (keyboard w)); [|done].
    by rewrite (pointerUp_detached _ _ Hc).
  - destruct (inputs w !! input); [|done]. simpl.
    by rewrite notifyVisibility_children, notifyVisibility_shiftState.
  - destruct (inputs w !! input); [|done]. simpl.
    by rewrite notifyVisibility_children, notifyVisibility_shiftState.
Qed.

(** X12: a keyboard with no input attached is inert.  Whatever keys are
    pressed, buttons released and inputs focused or blurred, also with
    routers left subscribed by earlier calls of [connect], no call is made
    and the rows, the labels and the shift state stay as they are. *)
Theorem detached_keyboard_inert (w : World) (events : list Event) :
  Forall user_event events →
  _connectedInputText (keyboard w) = None →
  (run events w).2 = []
  ∧ children (keyboard (run events w).1) = children (keyboard w)
  ∧ shiftState (keyboard (run events w).1) = shiftState (keyboard w)
  ∧ _connectedInputText (keyboard (run events w).1) = None.
Proof.
  revert w. induction events as [|e events IH]; intros w Hu Hc; simpl;
    [done|].
  apply Forall_cons in Hu as [He Hu].
  destruct (step_detached e w He Hc) as (Hcalls & Hch & Hs & Hc1).
  destruct (step e w) as [w1 c1]. simpl in *.
  destruct (IH w1 Hu Hc1) as (Hcalls' & Hch' & Hs' & Hc2).
  destruct (run events w1) as [w2 c2]. simpl in *. subst.
  repeat split; congruence.
Qed.

End KeyEvents.

(** ** The calls of the router *)

Section Calls.
Context `{CaseMapping}.

Lemma onKeyPress_targets key k :
  Forall (λ c, ∀ i, call_target c = Some i → _connectedInputText k = Some i)
    (onKeyPress key k).2.
Proof.
  unfold onKeyPress. destruct (_connectedInputText k) as [input|]; [|done].
  repeat case_match; simpl; repeat constructor; simpl; congruence.
Qed.

Lemma notifyObservers_targets observers key k :
  Forall (λ c, ∀ i, call_target c = Some i → _connectedInputText k = Some i)
    (notifyObservers observers key k).2.
Proof.
  revert k. induction observers as [|[id []] observers IH]; intros k; simpl;
    [done|].
  pose proof (onKeyPress_targets key k) as Ht.
  pose proof (onKeyPress_connected key k) as Hc.
  destruct (onKeyPress key k) as [k1 c1]. specialize (IH k1).
  destruct (notifyObservers observers key k1) as [k2 c2]. simpl in *.
  apply Forall_app. split; [done|]. by rewrite <- Hc.
Qed.

Lemma notifyObservers_connected observers key k :
  _connectedInputText (notifyObservers observers key k).1
  = _connectedInputText k.
Proof.
  pose proof (notifyObservers_wiring observers key k) as Hw.
  unfold wiring in Hw. by injection Hw as _ -> _ _ _.
Qed.

Lemma pointerUp_targets callbacks k :
  Forall (λ c, ∀ i, call_target c = Some i → _connectedInputText k = Some i)
    (pointerUp callbacks k).2.
Proof.
  revert k. induction callbacks as [|[key] callbacks IH]; intros k; simpl;
    [done|].
  pose proof (notifyObservers_targets (onKeyPressObservable k) key k) as Ht.
  pose proof (notifyObservers_connected (onKeyPressObservable k) key k) as Hc.
  unfold notifyKeyPress.
  destruct (notifyObservers (onKeyPressObservable k) key k) as [k1 c1].
  specialize (IH k1). destruct (pointerUp callbacks k1) as [k2 c2].
  simpl in *. apply Forall_app. split; [done|]. by rewrite <- Hc.
Qed.

Lemma step_targets e w :
  Forall (λ c, ∀ i, call_target c = Some i →
                    _connectedInputText (keyboard w) = Some i)
    (step e w).2.
Proof.
  destruct e as [key|row column|input|input|input|]; simpl; try done.
  - apply notifyObservers_targets.
  - destruct (button_at row column (keyboard w)); [|done].
    apply pointerUp_targets.
  - by destruct (inputs w !! input).
  - by destruct (inputs w !! input).
Qed.

Lemma attached_during_step e events w i :
  i ∈ attached_during events (step e w).1 →
  i ∈ attached_during (e :: events) w.
Proof.
  unfold attached_during. intros Hi.
  assert (Huser : user_event e →
            _connectedInputText (keyboard (step e w).1)
            = _connectedInputText (keyboard w)).
  { intros He. destruct (step_user_event e w He) as (Hw & _ & _).
    unfold wiring in Hw. by injection Hw as _ Hc _ _ _. }
  apply elem_of_app in Hi as [Hi|Hi]; apply elem_of_app.
  - destruct e as [key|row column|input|input|input|].
    + left. by rewrite <- (Huser I).
    + left. by rewrite <- (Huser I).
    + left. by rewrite <- (Huser I).
    + left. by rewrite <- (Huser I).
    + right. simpl in Hi. apply list_elem_of_singleton in Hi as ->.
      csimpl. apply list_elem_of_here.
    + cbn [step fst] in Hi. rewrite disconnect_detached in Hi.
      by apply elem_of_nil in Hi.
  - right. csimpl. destruct e; try done. by apply list_elem_of_further.
Qed.

(** X13: the router forwards to attached inputs only: every [processKey]
    of a run goes to the input that was attached at the start or to one
    that a [connect] of the run attached; with no [connect] or [disconnect]
    in the run, every [processKey] goes to the input attached at the
    start. *)
Theorem calls_go_to_attached_inputs (w : World) (events : list Event) :
  Forall (λ c, ∀ i, call_target c = Some i → i ∈ attached_during events w)
    (run events w).2
  ∧ (Forall user_event events →
     Forall (λ c, ∀ i, call_target c = Some i →
                       _connectedInputText (keyboard w) = Some i)
       (run events w).2).
Proof.
  assert (Hgen : ∀ events w,
            Forall (λ c, ∀ i, call_target c = Some i →
                              i ∈ attached_during events w)
              (run events w).2).
  { clear. intros events.
    induction events as [|e events IH]; intros w; simpl; [done|].
    pose proof (step_targets e w) as Ht.
    pose proof (λ i, attached_during_step e events w i) as Hsub.
    destruct (step e w) as [w1 c1]. specialize (IH w1).
    destruct (run events w1) as [w2 c2]. simpl in *.
    apply Forall_app. split.
    - eapply Forall_impl; [exact Ht|]. intros c Hc i Hi.
      unfold attached_during. apply elem_of_app. left.
      rewrite (Hc i Hi). apply list_elem_of_here.
    - eapply Forall_impl; [exact IH|]. intros c Hc i Hi.
      apply Hsub. by apply Hc. }
  split; [apply Hgen|]. intros Hu.
  assert (Hnone : omap (λ e, match e with
                             | Connect input => Some input
                             | _ => None
                             end) events = []).
  { clear Hgen. induction events as [|e events IH]; [done|].
    apply Forall_cons in Hu as [He Hu]. csimpl.
    destruct e; try done; by apply IH. }
  eapply Forall_impl; [apply Hgen|]. intros c Hc i Hi.
  specialize (Hc i Hi). unfold attached_during in Hc.
  rewrite Hnone, app_nil_r in Hc.
  destruct (_connectedInputText (keyboard w)); simpl in Hc.
  - by apply list_elem_of_singleton in Hc as ->.
  - by apply elem_of_nil in Hc.
Qed.

Lemma onKeyPress_well_formed key k :
  shift_state_ok (shiftState k) →
  Forall call_well_formed (onKeyPress key k).2.
Proof.
  intros Hs. pose proof (onKeyPress_shift_state_ok key k Hs) as Hs'.
  unfold onKeyPress in *. destruct (_connectedInputText k); [|done].
  destruct (String.eqb key SHIFT).
  { apply Forall_singleton. exact Hs'. }
  destruct (String.eqb key BACKSPACE).
  { apply Forall_singleton. by left. }
  destruct (String.eqb key ENTER).
  { apply Forall_singleton. right. by left. }
  assert (Hfw : ∀ c : string, call_well_formed (ProcessKey l (-1) (Some c))).
  { intros c. right. right. split; [done|]. by eexists. }
  destruct (shiftState k =? 1).
  - apply Forall_cons. split; [apply Hfw|]. apply Forall_singleton. by left.
  - apply Forall_singleton, Hfw.
Qed.

Lemma notifyObservers_well_formed observers key k :
  shift_state_ok (shiftState k) →
  Forall call_well_formed (notifyObservers observers key k).2.
Proof.
  revert k. induction observers as [|[id []] observers IH]; intros k Hs;
    simpl; [done|].
  pose proof (onKeyPress_well_formed key k Hs) as Hw.
  pose proof (onKeyPress_shift_state_ok key k Hs) as Hs1.
  destruct (onKeyPress key k) as [k1 c1]. specialize (IH k1 Hs1).
  destruct (notifyObservers observers key k1) as [k2 c2]. simpl in *.
  apply Forall_app. by split.
Qed.

Lemma pointerUp_well_formed callbacks k :
  shift_state_ok (shiftState k) →
  Forall call_well_formed (pointerUp callbacks k).2.
Proof.
  revert k. induction callbacks as [|[key] callbacks IH]; intros k Hs;
    simpl; [done|].
  pose proof (notifyObservers_well_formed (onKeyPressObservable k) key k Hs)
    as Hw.
  pose proof (notifyObservers_shift_state_ok (onKeyPressObservable k) key k
                Hs) as Hs1.
  unfold notifyKeyPress.
  destruct (notifyObservers (onKeyPressObservable k) key k) as [k1 c1].
  specialize (IH k1 Hs1). destruct (pointerUp callbacks k1) as [k2 c2].
  simpl in *. apply Forall_app. by split.
Qed.

Lemma step_well_formed e w :
  shift_state_ok (shiftState (keyboard w)) →
  Forall call_well_formed (step e w).2.
Proof.
  intros Hs. destruct e as [key|row column|input|input|input|]; simpl;
    try done.
  - by apply notifyObservers_well_formed.
  - destruct (button_at row column (keyboard w)); [|done].
    by apply pointerUp_well_formed.
  - by destruct (inputs w !! input).
  - by destruct (inputs w !! input).
Qed.

(** X14: the router makes four kinds of calls and no other.  From a shift
    state among 0, 1 and 2, every call of a run is [processKey(8)] or
    [processKey(13)] without a character, [processKey(-1, c)] with a
    character, or [applyShiftState] with 0, 1 or 2. *)
Theorem router_calls_well_formed (w : World) (events : list Event) :
  shift_state_ok (shiftState (keyboard w)) →
  Forall call_well_formed (run events w).2.
Proof.
  revert w. induction events as [|e events IH]; intros w Hs; simpl; [done|].
  pose proof (step_well_formed e w Hs) as Hw.
  pose proof (step_shift_state_ok e w Hs) as Hs1.
  destruct (step e w) as [w1 c1]. specialize (IH w1 Hs1).
  destruct (run events w1) as [w2 c2]. simpl in *.
  apply Forall_app. by split.
Qed.

(** While the shift state is not 1, literal keys leave the keyboard as it
    is and are forwarded one by one. *)
Lemma pressKeys_steady k input keys :
  _connectedInputText k = Some input →
  shiftState k ≠ 1 →
  Forall literal keys →
  pressKeys keys k
  = (k, (λ key,
           ProcessKey input (-1)
             (Some (if truthy (shiftState k) then toUpperCase key else key)))
          <$> keys).
Proof.
  intros Hc Hs Hl. induction keys as [|key keys IH]; [done|].
  apply Forall_cons in Hl as [(Hns & Hnb & Hne) Hl]. simpl.
  rewrite (onKeyPress_literal k input key Hc Hns Hnb Hne).
  apply Z.eqb_neq in Hs. rewrite Hs. by rewrite (IH Hl).
Qed.

(** X15: typing a word on a connected keyboard.  In state 0 the keys are
    forwarded as they are and in state 2 all upper-cased, the keyboard
    staying as it is; in state 1 the first key is upper-cased, the state is
    reset to 0 with one call of [applyShiftState(0)], and the other keys are
    forwarded as they are. *)
Theorem typing_a_word (k : VirtualKeyboard.t) (input : loc) (key : string)
    (keys : list string) :
  _connectedInputText k = Some input →
  literal key →
  Forall literal keys →
  (shiftState k = 0 →
     pressKeys (key :: keys) k
     = (k, (λ key, ProcessKey input (-1) (Some key)) <$> key :: keys))
  ∧ (shiftState k = 2 →
       pressKeys (key :: keys) k
       = (k, (λ key, ProcessKey input (-1) (Some (toUpperCase key)))
               <$> key :: keys))
  ∧ (shiftState k = 1 →
       pressKeys (key :: keys) k
       = (applyShiftState 0 (set_shiftState 0 k),
          ProcessKey input (-1) (Some (toUpperCase key))
          :: ApplyShiftState 0
          :: ((λ key, ProcessKey input (-1) (Some key)) <$> keys))).
Proof.
  intros Hc Hkey Hkeys.
  assert (Hall : Forall literal (key :: keys)) by by constructor.
  split; [|split]; intros Hs.
  - rewrite (pressKeys_steady k input _ Hc) by (done || lia).
    by rewrite Hs.
  - rewrite (pressKeys_steady k input _ Hc) by (done || lia).
    by rewrite Hs.
  - destruct Hkey as (Hns & Hnb & Hne). cbn [pressKeys].
    rewrite (onKeyPress_literal k input key Hc Hns Hnb Hne), Hs.
    change (1 =? 1) with true. change (truthy 1) with true. cbn iota beta.
    rewrite (pressKeys_steady (applyShiftState 0 (set_shiftState 0 k)) input
               keys); [done|done| |done].
    rewrite applyShiftState_shiftState, shiftState_set_shiftState. lia.
Qed.



End Calls.

(** ** The further properties at work on the default layout *)

Lemma world2_observers_known : observers_known world2.
Proof.
  split; [by constructor|].
  apply map_Forall_insert_2; [by split; constructor|].
  apply map_Forall_singleton. by split; constructor.
Defined.

Lemma world0_emits_own_keys :
  Forall emits_own_key (buttons (keyboard world0)).
Proof.
  vm_compute. repeat (apply Forall_cons; split; [reflexivity|]).
  constructor.
Defined.

Lemma connect_shows_on_focus_witness :
  inputs world0 !! 0%nat = Some (InputText.mk [] [])
  ∧ isVisible (keyboard (connect 0%nat world0)) = false
  ∧ isVisible
      (keyboard (@step ascii_case (Focus 0%nat) (connect 0%nat world0)).1)
    = true
  ∧ isVisible
      (keyboard (@step ascii_case (Blur 0%nat) (connect 0%nat world0)).1)
    = false.
Proof.
  split; [reflexivity|].
  destruct (@connect_shows_on_focus ascii_case world0 0%nat
              (InputText.mk [] []) eq_refl)
    as (_ & Hh & _ & _ & Hf & Hb & _).
  split; [exact Hh|]. split; [exact Hf|exact Hb].
Defined.

Lemma disconnect_leaves_hidden_witness :
  let w2 := disconnect (connect 0%nat world0) in
  observers_known world0
  ∧ inputs world0 !! 0%nat = Some (InputText.mk [] [])
  ∧ isVisible (keyboard world0) = true
  ∧ isVisible (keyboard w2) = false
  ∧ @step ascii_case (Focus 0%nat) w2 = (w2, []).
Proof.
  intros w2. split; [exact world0_observers_known|].
  split; [reflexivity|]. split; [reflexivity|].
  destruct (@disconnect_leaves_hidden ascii_case world0 0%nat
              world0_observers_known eq_refl) as (Hh & Hf & _).
  split; [exact Hh|exact Hf].
Defined.

Lemma connect_twice_routes_twice_witness :
  let k := keyboard (connect 1%nat (connect 0%nat world2)) in
  onKeyPressObservable (keyboard world2) = []
  ∧ shiftState (keyboard world2) = 0
  ∧ literal "a"
  ∧ shiftState (@notifyKeyPress ascii_case SHIFT k).1 = 2
  ∧ (@notifyKeyPress ascii_case "a" k).2
    = [ProcessKey 1%nat (-1) (Some "a"); ProcessKey 1%nat (-1) (Some "a")].
Proof.
  intros k.
  assert (Hl : literal "a") by (repeat split; discriminate).
  split; [reflexivity|]. split; [reflexivity|]. split; [exact Hl|].
  destruct (@connect_twice_routes_twice ascii_case world2 0%nat 1%nat "a"
              eq_refl) as (_ & _ & _ & _ & Hs).
  destruct (Hs eq_refl) as [Hshift Hkey].
  split; [exact Hshift|exact (Hkey Hl)].
Defined.

Lemma disconnect_after_connect_twice_witness :
  onKeyPressObservable (keyboard world2) = []
  ∧ 0%nat ≠ 1%nat
  ∧ inputs world2 !! 0%nat = Some (InputText.mk [] [])
  ∧ connectedInputText (keyboard world2_reconnected) = None
  ∧ length (onKeyPressObservable (keyboard world2_reconnected)) = 1%nat
  ∧ isVisible
      (keyboard (@step ascii_case (Focus 0%nat) world2_reconnected).1)
    = true.
Proof.
  assert (Hne : 0%nat ≠ 1%nat) by discriminate.
  split; [reflexivity|]. split; [exact Hne|]. split; [reflexivity|].
  destruct (@disconnect_after_connect_twice ascii_case world2 0%nat 1%nat
              (InputText.mk [] []) "a" eq_refl Hne eq_refl)
    as (Hc & Ho & _ & _ & Hf).
  split; [exact Hc|]. split; [|exact Hf].
  unfold world2_reconnected. by rewrite Ho.
Defined.

Lemma reconnect_after_disconnect_witness :
  let w3 := connect 1%nat (disconnect (connect 0%nat world2)) in
  observers_known world2
  ∧ onKeyPressObservable (keyboard world2) = []
  ∧ length (onKeyPressObservable (keyboard w3)) = 1%nat
  ∧ inputs w3 !! 0%nat = Some (InputText.mk [] []).
Proof.
  intros w3. split; [exact world2_observers_known|]. split; [reflexivity|].
  destruct (@reconnect_after_disconnect ascii_case world2 0%nat 1%nat "a"
              world2_observers_known eq_refl) as (_ & Hl & _ & Hi).
  split; [exact Hl|].
  transitivity (inputs world2 !! 0%nat); [apply Hi; discriminate|reflexivity].
Defined.

Lemma applyShiftState_leaves_router_witness :
  _connectedInputText keyboard0 = Some 0%nat
  ∧ shiftState keyboard0 = 0
  ∧ literal "a"
  ∧ (@onKeyPress ascii_case "a" (@applyShiftState ascii_case 2 keyboard0)).2
    = [ProcessKey 0%nat (-1) (Some "a")].
Proof.
  assert (Hl : literal "a") by (repeat split; discriminate).
  split; [reflexivity|]. split; [reflexivity|]. split; [exact Hl|].
  destruct (@applyShiftState_leaves_router ascii_case keyboard0 2 "a" 0%nat
              eq_refl) as (_ & _ & Hk).
  by rewrite (Hk eq_refl Hl).
Defined.

Lemma addKeysRow_builds_keys_witness :
  ∃ row b,
    children (addKeysRow ["A"] None (VirtualKeyboard.new control0))
    = [Some row]
    ∧ StackPanel.children row !! 0%nat = Some (Some b)
    ∧ label b = Some "A"
    ∧ Button.thickness b = 0
    ∧ Button.onPointerUpObservable b = [NotifyKeyPress "A"].
Proof.
  destruct (addKeysRow_builds_keys (VirtualKeyboard.new control0) ["A"] None)
    as (row & Hrow & _ & _ & _ & Hkeys & _).
  destruct (Hkeys 0%nat "A" eq_refl)
    as (b & Hb & Hn & Hc & Ht & _ & _ & _ & _ & _ & He).
  exists row, b. split; [by rewrite Hrow|]. split; [exact Hb|].
  split; [unfold label; by rewrite Hc|]. split; [exact Ht|].
  unfold emits_own_key in He. by rewrite He, Hn.
Defined.

Lemma pointerUp_is_key_press_witness :
  let w' := (@run ascii_case [Connect 0%nat; KeyPress SHIFT] world0).1 in
  Forall emits_own_key (buttons (keyboard world0))
  ∧ label <$> button_at 1 0 (keyboard w') = Some (Some "Q")
  ∧ @step ascii_case (PointerUp 1 0) w' = @step ascii_case (KeyPress "q") w'.
Proof.
  intros w'. split; [exact world0_emits_own_keys|]. split; [reflexivity|].
  pose proof (@pointerUp_is_key_press ascii_case world0
                [Connect 0%nat; KeyPress SHIFT] 1%nat 0%nat
                world0_emits_own_keys) as Hp.
  cbv zeta in Hp. fold w' in Hp.
  destruct (button_at 1 0 (keyboard w')) as [b|] eqn:Hb;
    [|discriminate Hb].
  destruct Hp as (Hstep & b0 & Hb0 & Hn).
  rewrite Hstep, <- Hn. injection Hb0 as <-. reflexivity.
Defined.

Lemma detached_keyboard_inert_witness :
  let events := [KeyPress SHIFT; PointerUp 1 0; KeyPress "a"; Blur 0%nat] in
  Forall user_event events
  ∧ _connectedInputText (keyboard world2_reconnected) = None
  ∧ length (onKeyPressObservable (keyboard world2_reconnected)) = 1%nat
  ∧ (@run ascii_case events world2_reconnected).2 = []
  ∧ shiftState (keyboard (@run ascii_case events world2_reconnected).1) = 0.
Proof.
  intros events.
  assert (Hu : Forall user_event events) by (repeat constructor).
  split; [exact Hu|]. split; [reflexivity|]. split; [reflexivity|].
  destruct (@detached_keyboard_inert ascii_case world2_reconnected events Hu
              eq_refl) as (Hc & _ & Hs & _).
  split; [exact Hc|]. exact (eq_trans Hs eq_refl).
Defined.

Lemma calls_go_to_attached_inputs_witness :
  let events := [Connect 0%nat; KeyPress "a"; Connect 1%nat; KeyPress "b"] in
  attached_during events world2 = [0%nat; 1%nat]
  ∧ Forall (λ c, ∀ i, call_target c = Some i → i ∈ [0%nat; 1%nat])
      (@run ascii_case events world2).2.
Proof.
  intros events. split; [reflexivity|].
  exact (proj1 (@calls_go_to_attached_inputs ascii_case world2 events)).
Defined.

Lemma router_calls_well_formed_witness :
  let events := [Connect 0%nat; KeyPress SHIFT; KeyPress "a";
                 KeyPress BACKSPACE; PointerUp 2 11] in
  shift_state_ok (shiftState (keyboard world0))
  ∧ Forall call_well_formed (@run ascii_case events world0).2.
Proof.
  intros events.
  assert (Hs : shift_state_ok (shiftState (keyboard world0))) by by left.
  split; [exact Hs|].
  exact (@router_calls_well_formed ascii_case world0 events Hs).
Defined.

Lemma typing_a_word_witness :
  let k := (@onKeyPress ascii_case SHIFT keyboard0).1 in
  _connectedInputText k = Some 0%nat
  ∧ literal "h" ∧ Forall literal ["i"]
  ∧ shiftState k = 1
  ∧ (@pressKeys ascii_case ["h"; "i"] k).2
    = [ProcessKey 0%nat (-1) (Some "H"); ApplyShiftState 0;
       ProcessKey 0%nat (-1) (Some "i")].
Proof.
  intros k.
  assert (Hh : literal "h") by (repeat split; discriminate).
  assert (Hi : Forall literal ["i"]).
  { apply Forall_singleton. repeat split; discriminate. }
  split; [reflexivity|]. split; [exact Hh|]. split; [exact Hi|].
  split; [reflexivity|].
  destruct (@typing_a_word ascii_case k 0%nat "h" ["i"] eq_refl Hh Hi)
    as (_ & _ & H1).
  by rewrite (H1 eq_refl).
Defined.

